(** * Schema path resolution and attribute validation

    A shallow embedding of the data source schema of the plugin framework
    (datasource/schema: [Schema], [NestedAttributeObject]) and of the
    attribute validation of its server (fwserver: [AttributeValidate],
    [AttributeValidateNestedAttributes]).

    Go maps are [gmap]s with string keys.  Interfaces are records of what
    their methods return; a type assertion [x.(I)] is an [option] field that
    is [Some] exactly when the dynamic type implements [I].  The response
    that the validation functions mutate through a pointer is passed as
    explicit state. *)

From Stdlib Require Import ZArith.
From stdpp Require Import gmap strings list fin_maps fin_map_dom.

#[local] Set Warnings "-register-all".
#[local] Open Scope string_scope.

(** ** Attribute types *)

(** Modelled from the spec: the implementations of [attr.Type] (package
    types) are not among the sources.  The variants are those of the data
    model: four scalars, three collections of an element type and the object
    with named fields.  [attr.Type] is a Go interface, so a slot of that type
    may also hold nil: [NilType] is that nil interface value. *)
Inductive AttrType : Type :=
| NilType
| BoolType
| StringType
| Int64Type
| Float64Type
| ListType (ElemType : AttrType)
| SetType (ElemType : AttrType)
| MapType (ElemType : AttrType)
| ObjectType (AttrTypes : gmap string AttrType).

Definition AttrType_is_nil (t : AttrType) : bool :=
  match t with NilType => true | _ => false end.

(** ** Paths of the wire protocol (tftypes) *)

(** A wire-level value that identifies an element of a set.  Only the kind
    of a step matters to the steppers below. *)
Inductive RawValue : Type :=
| RawNull
| RawUnknown
| RawBool (b : bool)
| RawString (s : string)
| RawNumber (z : Z)
| RawElements (vs : list RawValue).

(** [tftypes.AttributePathStep]: the four kinds of step. *)
Inductive AttributePathStep : Type :=
| AttributeName (name : string)
| ElementKeyString (key : string)
| ElementKeyInt (idx : Z)
| ElementKeyValue (v : RawValue).

Abbreviation tftypes_AttributePath := (list AttributePathStep).

(** ** Values and diagnostics *)

(** [fwschema.NestingMode]. *)
Inductive NestingMode : Type :=
| NestingModeUnknown
| NestingModeSingle
| NestingModeList
| NestingModeSet
| NestingModeMap.

Definition NestingMode_eqb (a b : NestingMode) : bool :=
  match a, b with
  | NestingModeUnknown, NestingModeUnknown
  | NestingModeSingle, NestingModeSingle
  | NestingModeList, NestingModeList
  | NestingModeSet, NestingModeSet
  | NestingModeMap, NestingModeMap => true
  | _, _ => false
  end.

Inductive Severity : Type := SeverityError | SeverityWarning.

(** The severity, summary and detail of a diagnostic that carries no path,
    as a value conversion returns them. *)
Record Message : Type := MkMessage {
  MessageSeverity : Severity;
  MessageSummary : string;
  MessageDetail : string }.

(** [types.ObjectValue], as far as validation looks at it. *)
Record ObjectValue : Type := MkObjectValue {
  ObjectIsNull : bool;
  ObjectIsUnknown : bool }.

(** [attr.Value] is an interface.  A value is what its methods return:
    [IsNull], [IsUnknown] and, for each of the interfaces
    [types.ListValuable], [types.SetValuable], [types.MapValuable] and
    [types.ObjectValuable] that it implements, the result of the conversion
    ([ToListValue] and the like): the elements of the converted collection
    and the diagnostics of the conversion. *)
Inductive Value : Type := MkValue {
  IsNull : bool;
  IsUnknown : bool;
  AsListValuable : option (list Value * list Message);
  AsSetValuable : option (list Value * list Message);
  AsMapValuable : option (gmap string Value * list Message);
  AsObjectValuable : option (ObjectValue * list Message) }.

(** [path.PathStep] of the framework; a set element is addressed by its
    value. *)
Inductive PathStep : Type :=
| PathStepAttributeName (name : string)
| PathStepElementKeyInt (idx : Z)
| PathStepElementKeyString (key : string)
| PathStepElementKeyValue (v : Value).

Abbreviation Path := (list PathStep).

Definition AtName (p : Path) (name : string) : Path :=
  p ++ [PathStepAttributeName name].
Definition AtListIndex (p : Path) (idx : nat) : Path :=
  p ++ [PathStepElementKeyInt (Z.of_nat idx)].
Definition AtMapKey (p : Path) (key : string) : Path :=
  p ++ [PathStepElementKeyString key].
Definition AtSetValue (p : Path) (v : Value) : Path :=
  p ++ [PathStepElementKeyValue v].

(** The detail of a diagnostic is text; where the sources format a path, a
    type or a nesting mode into it ([%s], [%T], [%v]), the detail keeps the
    argument in place of its rendering. *)
Inductive DetailPart : Type :=
| Text (s : string)
| PathText (p : Path)
| ValueTypeText (v : option Value)
| NestingModeTypeText
| NestingModeText (nm : NestingMode).

(** Modelled from the spec: package diag is not among the sources.  A
    diagnostic has a severity, a path (none for a diagnostic without path),
    a summary and a detail; [diag.Diagnostics] is an ordered, append-only
    sequence of them. *)
Record Diagnostic : Type := MkDiagnostic {
  DiagSeverity : Severity;
  DiagPath : option Path;
  DiagSummary : string;
  DiagDetail : list DetailPart }.

Abbreviation diag_Diagnostics := (list Diagnostic).

Definition is_error (d : Diagnostic) : bool :=
  match DiagSeverity d with SeverityError => true | SeverityWarning => false end.

Definition HasError (diags : diag_Diagnostics) : bool := existsb is_error diags.

(** The [Equal] of the values ([attr.Value]) and the comparison of the texts
    of two details are not among the sources: they are taken as they
    come. *)
Record Equality : Type := MkEquality {
  Value_Equal : Value → Value → bool;
  Detail_Equal : list DetailPart → list DetailPart → bool }.

Definition Severity_eqb (a b : Severity) : bool :=
  match a, b with
  | SeverityError, SeverityError | SeverityWarning, SeverityWarning => true
  | _, _ => false
  end.

Section DiagnosticsEquality.

Variable E : Equality.

(** Modelled from the spec: package path is not among the sources.  Two
    steps are equal when they are of the same kind and hold the same name,
    index or key; two steps into a set, when their values are [Equal]: a set
    element is identified by full value equality. *)
Definition PathStep_Equal (s o : PathStep) : bool :=
  match s, o with
  | PathStepAttributeName a, PathStepAttributeName b => String.eqb a b
  | PathStepElementKeyInt i, PathStepElementKeyInt j => Z.eqb i j
  | PathStepElementKeyString a, PathStepElementKeyString b => String.eqb a b
  | PathStepElementKeyValue v, PathStepElementKeyValue w => Value_Equal E v w
  | _, _ => false
  end.

Fixpoint Path_Equal (p o : Path) : bool :=
  match p, o with
  | [], [] => true
  | s :: p, t :: o => PathStep_Equal s t && Path_Equal p o
  | _, _ => false
  end.

(** Modelled from the spec: package diag is not among the sources.  Two
    diagnostics are equal when they have the same severity, both no path or
    equal paths, the same summary and the same detail. *)
Definition Diagnostic_Equal (d other : Diagnostic) : bool :=
  Severity_eqb (DiagSeverity d) (DiagSeverity other)
  && match DiagPath d, DiagPath other with
     | Some p, Some o => Path_Equal p o
     | None, None => true
     | _, _ => false
     end
  && String.eqb (DiagSummary d) (DiagSummary other)
  && Detail_Equal E (DiagDetail d) (DiagDetail other).

(** [Diagnostics.Contains]: the sequence holds a diagnostic equal to [d]. *)
Definition Contains (diags : diag_Diagnostics) (d : Diagnostic) : bool :=
  existsb (λ diag, Diagnostic_Equal diag d) diags.

(** Modelled from the spec: package diag is not among the sources.  The spec
    has the sequence of diagnostics append-only: nothing is removed or
    reordered, and what is new goes to the end.  [Diagnostics.Append] of the
    framework goes through the new diagnostics in their order and adds each
    at the end unless the sequence already [Contains] an equal one, which it
    skips; what the sequence held stays in front as it was.
    [AddAttributeError] and [AddAttributeWarning] go through it. *)
Definition Append (diags new : diag_Diagnostics) : diag_Diagnostics :=
  fold_left (λ diags d, if Contains diags d then diags else (diags ++ [d])%list) new diags.

Definition NewAttributeErrorDiagnostic (p : Path) (summary : string) (detail : list DetailPart) : Diagnostic :=
  MkDiagnostic SeverityError (Some p) summary detail.

Definition NewAttributeWarningDiagnostic (p : Path) (summary : string) (detail : list DetailPart) : Diagnostic :=
  MkDiagnostic SeverityWarning (Some p) summary detail.

Definition AddAttributeError (diags : diag_Diagnostics) (p : Path) (summary : string) (detail : list DetailPart) : diag_Diagnostics :=
  Append diags [NewAttributeErrorDiagnostic p summary detail].

Definition AddAttributeWarning (diags : diag_Diagnostics) (p : Path) (summary : string) (detail : list DetailPart) : diag_Diagnostics :=
  Append diags [NewAttributeWarningDiagnostic p summary detail].

Definition of_message (m : Message) : Diagnostic :=
  MkDiagnostic (MessageSeverity m) None (MessageSummary m) [Text (MessageDetail m)].

(** ** Requests, validators, attributes, blocks and the schema *)

(** Modelled from the spec: [fwschemadata.Data.ValueAtPath] is not among the
    sources.  The configuration of a request is taken as the function that
    [ValueAtPath] computes from it: the value at a path and the diagnostics
    of fetching it.  The value is looked at only when these diagnostics hold
    no error. *)
Record Config : Type := MkConfig {
  ValueAtPath : Path → Value * diag_Diagnostics }.

(** [tfsdk.ValidateAttributeRequest].  [AttributeConfig] is nil ([None])
    until [AttributeValidate] sets it.  The path expression is built by the
    same steps as the path. *)
Record ValidateAttributeRequest : Type := MkRequest {
  AttributePath : Path;
  AttributePathExpression : Path;
  RequestConfig : Config;
  AttributeConfig : option Value }.

(** A validator is supplied by the provider: [Validate] receives the request
    and the response, whose diagnostics it may change. *)
Record Validator : Type := MkValidator {
  Description : string;
  Validate : ValidateAttributeRequest → diag_Diagnostics → diag_Diagnostics }.

(** [Attribute] is an interface (fwschema.Attribute); an attribute is what
    the methods and type assertions used by the sources return:
    [AsTfsdkAttribute] is the assertion [a.(tfsdk.Attribute)],
    [AsAttributeWithValidators] is [a.(fwxschema.AttributeWithValidators)]
    with its [GetValidators], and [AsNestedAttribute] is
    [a.(fwschema.NestedAttribute)] with [GetNestingMode] and the nested
    object whose [Attributes] [GetAttributes] returns. *)
Inductive Attribute : Type := MkAttribute {
  AsTfsdkAttribute : bool;
  GetType : AttrType;
  IsRequired : bool;
  IsOptional : bool;
  IsComputed : bool;
  GetDeprecationMessage : string;
  AsAttributeWithValidators : option (list Validator);
  AsNestedAttribute : option (NestingMode * NestedAttributeObject) }
with NestedAttributeObject : Type := MkNestedAttributeObject {
  NestedAttributeObject_Attributes : gmap string Attribute;
  NestedAttributeObject_CustomType : option AttrType }.

(** [Block] is an interface (fwschema.Block with validators); of a block the
    sources use its [Type].  Modelled from the spec: a block is always
    structural and holds named attributes and named blocks. *)
Inductive Block : Type := MkBlock {
  Block_Type : AttrType;
  Block_Attributes : gmap string Attribute;
  Block_Blocks : gmap string Block }.

Record Schema : Type := MkSchema {
  Schema_Attributes : gmap string Attribute;
  Schema_Blocks : gmap string Block;
  Schema_Description : string;
  Schema_MarkdownDescription : string;
  Schema_DeprecationMessage : string }.

(** ** Walking a path *)

(** What a step or a walk yields is an [interface{}]; the dynamic kinds that
    the type switches of the schema tell apart, and [NOther] for a value of
    any other type (named as [%T] prints it). *)
Inductive Node : Type :=
| NType (t : AttrType)
| NUnderlyingAttributes (attrs : gmap string Attribute)
| NNestedBlock (b : Block)
| NAttribute (a : Attribute)
| NBlock (b : Block)
| NSchema (s : Schema)
| NNestedAttributeObject (o : NestedAttributeObject)
| NOther (typeName : string).

Inductive error : Type :=
| ErrPathInsideAtomicAttribute
| ErrPathIsBlock
(* tftypes: the value reached does not take steps *)
| ErrNotAttributePathStepper
(* "cannot apply AttributePathStep %T to schema", "can't apply %T to NestedAttributeObject" *)
| ErrCannotApplyStep (receiver : string) (step : AttributePathStep)
(* "could not find attribute or block %q in schema", "no attribute %q on NestedAttributeObject" *)
| ErrNotFound (receiver : string) (name : string)
(* "Schema AttributeAtTerraformPath got unexpected type %T" *)
| ErrAttributeAtUnexpectedType (res : Node)
(* "Schema TypeAtTerraformPath got unexpected type %T" *)
| ErrTypeAtUnexpectedType (res : Node)
(* "%v still remains in the path: %w" *)
| ErrStillRemains (remaining : tftypes_AttributePath) (cause : error).

Inductive result (A : Type) : Type :=
| Ok (a : A)
| Err (e : error).
Arguments Ok {A} a.
Arguments Err {A} e.

(** [Schema.ApplyTerraform5AttributePathStep]: only an attribute name
    applies; the attributes are searched before the blocks. *)
Definition Schema_ApplyTerraform5AttributePathStep (s : Schema) (step : AttributePathStep) : result Node :=
  match step with
  | AttributeName attrName =>
      match Schema_Attributes s !! attrName with
      | Some attr => Ok (NAttribute attr)
      | None =>
          match Schema_Blocks s !! attrName with
          | Some block => Ok (NBlock block)
          | None => Err (ErrNotFound "schema" attrName)
          end
      end
  | _ => Err (ErrCannotApplyStep "schema" step)
  end.

(** [NestedAttributeObject.ApplyTerraform5AttributePathStep]. *)
Definition NestedAttributeObject_ApplyTerraform5AttributePathStep
    (o : NestedAttributeObject) (step : AttributePathStep) : result Node :=
  match step with
  | AttributeName name =>
      match NestedAttributeObject_Attributes o !! name with
      | Some attribute => Ok (NAttribute attribute)
      | None => Err (ErrNotFound "NestedAttributeObject" name)
      end
  | _ => Err (ErrCannotApplyStep "NestedAttributeObject" step)
  end.

(** [NestedAttributeObject.Type]: the custom type when there is one,
    otherwise the object type of the attributes' types. *)
Definition NestedAttributeObject_Type (o : NestedAttributeObject) : AttrType :=
  match NestedAttributeObject_CustomType o with
  | Some customType => customType
  | None =>
      ObjectType
        (map_fold (λ name attribute attrTypes, <[name := GetType attribute]> attrTypes)
                  ∅ (NestedAttributeObject_Attributes o))
  end.

(** [Schema.Type]: the attributes' types are entered first, then the blocks'
    types under their names. *)
Definition Schema_Type (s : Schema) : AttrType :=
  let attrTypes :=
    map_fold (λ name attr attrTypes, <[name := GetType attr]> attrTypes)
             ∅ (Schema_Attributes s) in
  let attrTypes :=
    map_fold (λ name block attrTypes, <[name := Block_Type block]> attrTypes)
             attrTypes (Schema_Blocks s) in
  ObjectType attrTypes.

(** Modelled from the spec: [fwschema.UnderlyingAttributes.Type] is not among
    the sources; the holder of nested attributes synthesizes the object type
    of its attributes. *)
Definition UnderlyingAttributes_Type (attrs : gmap string Attribute) : AttrType :=
  ObjectType (GetType <$> attrs).

Section PathResolution.

(** The steppers of the attribute, block and type implementations and of
    the two holders are not among the sources: [implStep] is their
    [ApplyTerraform5AttributePathStep], whatever it does. *)
Variable implStep : Node → AttributePathStep → result Node.

(** The dynamic dispatch [stepper.ApplyTerraform5AttributePathStep(step)]. *)
Definition ApplyTerraform5AttributePathStep (n : Node) (step : AttributePathStep) : result Node :=
  match n with
  | NSchema s => Schema_ApplyTerraform5AttributePathStep s step
  | NNestedAttributeObject o => NestedAttributeObject_ApplyTerraform5AttributePathStep o step
  | _ => implStep n step
  end.

(** Modelled from the spec: [tftypes.WalkAttributePath] belongs to a library
    outside the sources.  The walk consumes one step at a time; it halts at
    the first step that fails and returns the node reached, the steps that
    remain and the error. *)
Fixpoint WalkAttributePath (n : Node) (path : tftypes_AttributePath) : Node * tftypes_AttributePath * option error :=
  match path with
  | [] => (n, path, None)
  | step :: rest =>
      match ApplyTerraform5AttributePathStep n step with
      | Err err => (n, path, Some err)
      | Ok next => WalkAttributePath next rest
      end
  end.

(** [Schema.AttributeAtTerraformPath]: the type switch on the result of the
    walk, its cases in the order of the source. *)
Definition Schema_AttributeAtTerraformPath (s : Schema) (path : tftypes_AttributePath) : result Attribute :=
  match WalkAttributePath (NSchema s) path with
  | (_, remaining, Some err) => Err (ErrStillRemains remaining err)
  | (res, _, None) =>
      match res with
      | NType _ => Err ErrPathInsideAtomicAttribute
      | NUnderlyingAttributes _ => Err ErrPathInsideAtomicAttribute
      | NNestedBlock _ => Err ErrPathInsideAtomicAttribute
      | NAttribute r => Ok r
      | NBlock _ => Err ErrPathIsBlock
      | _ => Err (ErrAttributeAtUnexpectedType res)
      end
  end.

(** [Schema.TypeAtTerraformPath]. *)
Definition Schema_TypeAtTerraformPath (s : Schema) (path : tftypes_AttributePath) : result AttrType :=
  match WalkAttributePath (NSchema s) path with
  | (_, remaining, Some err) => Err (ErrStillRemains remaining err)
  | (rawType, _, None) =>
      match rawType with
      | NType typ => Ok typ
      | NUnderlyingAttributes typ => Ok (UnderlyingAttributes_Type typ)
      | NAttribute typ => Ok (GetType typ)
      | NNestedBlock typ => Ok (Block_Type typ)
      | NBlock typ => Ok (Block_Type typ)
      | NSchema typ => Ok (Schema_Type typ)
      | _ => Err (ErrTypeAtUnexpectedType rawType)
      end
  end.

End PathResolution.

(** ** Attribute validation (fwserver) *)

(** A call that validation makes to a collaborator or, for
    [CallAttributeValidate], the descent into a nested attribute. *)
Inductive Call : Type :=
| CallValueAtPath (p : Path)
| CallValidate (description : string) (p : Path)
| CallToListValue (p : Path)
| CallToSetValue (p : Path)
| CallToMapValue (p : Path)
| CallToObjectValue (p : Path)
| CallAttributeValidate (p : Path).

(** [tfsdk.ValidateAttributeResponse] holds the diagnostics.  [Calls] is no
    field of the Go response: it lists, in the order they were made, the
    calls of the kinds above, so that a statement can say which took
    place. *)
Record ValidateAttributeResponse : Type := MkResponse {
  Diagnostics : diag_Diagnostics;
  Calls : list Call }.

Definition set_Diagnostics (resp : ValidateAttributeResponse) (diags : diag_Diagnostics) : ValidateAttributeResponse :=
  MkResponse diags (Calls resp).

Definition record_call (c : Call) (resp : ValidateAttributeResponse) : ValidateAttributeResponse :=
  MkResponse (Diagnostics resp) (Calls resp ++ [c]).

Definition nl : string := String (Ascii.ascii_of_nat 10) EmptyString.

Definition summary_InvalidAttributeDefinition : string := "Invalid Attribute Definition".
Definition summary_ReadOnlyAttribute : string := "Invalid Configuration for Read-Only Attribute".
Definition summary_MissingRequiredAttribute : string := "Missing Configuration for Required Attribute".
Definition summary_AttributeDeprecated : string := "Attribute Deprecated".
Definition summary_InvalidValueType : string := "Attribute Validation Error Invalid Value Type".
Definition summary_AttributeValidationError : string := "Attribute Validation Error".

Definition detail_MissingTypeOrAttributes : list DetailPart :=
  [Text "Attribute must define either Attributes or Type. This is always a problem with the provider and should be reported to the provider developer."].
Definition detail_BothTypeAndAttributes : list DetailPart :=
  [Text "Attribute cannot define both Attributes and Type. This is always a problem with the provider and should be reported to the provider developer."].
Definition detail_MissingRequiredOptionalComputed : list DetailPart :=
  [Text "Attribute missing Required, Optional, or Computed definition. This is always a problem with the provider and should be reported to the provider developer."].
Definition detail_ReadOnlyAttribute : list DetailPart :=
  [Text ("Cannot set value for this attribute as the provider has marked it as read-only. Remove the configuration line setting the value."
         +:+ nl +:+ nl +:+
         "Refer to the provider documentation or contact the provider developers for additional information about configurable and read-only attributes that are supported.")].
Definition detail_MissingRequiredAttribute (p : Path) : list DetailPart :=
  [Text "Must set a configuration value for the "; PathText p;
   Text (" attribute as the provider has marked it as required." +:+ nl +:+ nl +:+
         "Refer to the provider documentation or contact the provider developers for additional information about configurable attributes that are required.")].
Definition detail_InvalidValueType (valuable : string) (v : option Value) (nm : NestingMode) (p : Path) : list DetailPart :=
  [Text ("A type that implements types." +:+ valuable +:+ " is expected here. Report this to the provider developer:" +:+ nl +:+ nl +:+
         "unknown attribute value type (");
   ValueTypeText v; Text ") for nesting mode ("; NestingModeTypeText; Text ") at path: "; PathText p].
Definition detail_UnknownNestingMode (nm : NestingMode) (p : Path) : list DetailPart :=
  [Text ("Attribute validation cannot walk schema. Report this to the provider developer:" +:+ nl +:+ nl +:+
         "unknown attribute validation nesting mode (");
   NestingModeTypeText; Text ": "; NestingModeText nm; Text ") at path: "; PathText p].

(** [GetNestingMode] and [GetAttributes] of a [tfsdk.Attribute]: without
    nested attributes the mode is unknown and there are no attributes. *)
Definition tfsdk_GetNestingMode (a : Attribute) : NestingMode :=
  match AsNestedAttribute a with
  | Some (nm, _) => nm
  | None => NestingModeUnknown
  end.

Definition tfsdk_GetAttributes (a : Attribute) : gmap string Attribute :=
  match AsNestedAttribute a with
  | Some (_, o) => NestedAttributeObject_Attributes o
  | None => ∅
  end.

Definition resp_AddAttributeError (resp : ValidateAttributeResponse) (p : Path)
    (summary : string) (detail : list DetailPart) : ValidateAttributeResponse :=
  set_Diagnostics resp (AddAttributeError (Diagnostics resp) p summary detail).

Definition resp_AddAttributeWarning (resp : ValidateAttributeResponse) (p : Path)
    (summary : string) (detail : list DetailPart) : ValidateAttributeResponse :=
  set_Diagnostics resp (AddAttributeWarning (Diagnostics resp) p summary detail).

Definition resp_Append (resp : ValidateAttributeResponse) (diags : diag_Diagnostics) : ValidateAttributeResponse :=
  set_Diagnostics resp (Append (Diagnostics resp) diags).

Section NestedAttributes.

(** The validation of one attribute, which the nested validation calls
    for every nested attribute: [AttributeValidate] below. *)
Variable validate : Attribute → ValidateAttributeRequest → ValidateAttributeResponse → ValidateAttributeResponse.

(** The inner loop [for nestedName, nestedAttr := range
    nestedAttribute.GetAttributes()]; [at_element] extends a path to the
    element whose attributes are validated.  Go leaves the order of a
    [range] over a map open; [map_fold] visits the keys in one fixed
    order. *)
Definition validate_nested_attributes (attrs : gmap string Attribute)
    (req : ValidateAttributeRequest) (at_element : Path → Path)
    (resp : ValidateAttributeResponse) : ValidateAttributeResponse :=
  map_fold
    (λ nestedName nestedAttr resp,
       let nestedAttrReq :=
         {| AttributePath := AtName (at_element (AttributePath req)) nestedName;
            AttributePathExpression := AtName (at_element (AttributePathExpression req)) nestedName;
            RequestConfig := RequestConfig req;
            AttributeConfig := None |} in
       validate nestedAttr nestedAttrReq
                (record_call (CallAttributeValidate (AttributePath nestedAttrReq)) resp))
    resp attrs.

(** The body of [AttributeValidateNestedAttributes]. *)
Definition AttributeValidateNestedAttributes_body (a : Attribute)
    (req : ValidateAttributeRequest) (resp : ValidateAttributeResponse) : ValidateAttributeResponse :=
  match AsNestedAttribute a with
  | None => resp
  | Some (nm, nestedObject) =>
      if AsTfsdkAttribute a && NestingMode_eqb (tfsdk_GetNestingMode a) NestingModeUnknown then resp
      else
        let attrs := NestedAttributeObject_Attributes nestedObject in
        match nm with
        | NestingModeList =>
            match AttributeConfig req ≫= AsListValuable with
            | None =>
                resp_AddAttributeError resp (AttributePath req) summary_InvalidValueType
                  (detail_InvalidValueType "ListValuable" (AttributeConfig req) nm (AttributePath req))
            | Some (l, diags) =>
                let resp := record_call (CallToListValue (AttributePath req)) resp in
                let resp := resp_Append resp (of_message <$> diags) in
                if HasError (Diagnostics resp) then resp
                else
                  fold_left
                    (λ resp idx, validate_nested_attributes attrs req (λ p, AtListIndex p idx) resp)
                    (seq 0 (length l)) resp
            end
        | NestingModeSet =>
            match AttributeConfig req ≫= AsSetValuable with
            | None =>
                resp_AddAttributeError resp (AttributePath req) summary_InvalidValueType
                  (detail_InvalidValueType "SetValuable" (AttributeConfig req) nm (AttributePath req))
            | Some (s, diags) =>
                let resp := record_call (CallToSetValue (AttributePath req)) resp in
                let resp := resp_Append resp (of_message <$> diags) in
                if HasError (Diagnostics resp) then resp
                else
                  fold_left
                    (λ resp value, validate_nested_attributes attrs req (λ p, AtSetValue p value) resp)
                    s resp
            end
        | NestingModeMap =>
            match AttributeConfig req ≫= AsMapValuable with
            | None =>
                resp_AddAttributeError resp (AttributePath req) summary_InvalidValueType
                  (detail_InvalidValueType "MapValuable" (AttributeConfig req) nm (AttributePath req))
            | Some (m, diags) =>
                let resp := record_call (CallToMapValue (AttributePath req)) resp in
                let resp := resp_Append resp (of_message <$> diags) in
                if HasError (Diagnostics resp) then resp
                else
                  map_fold
                    (λ key _ resp, validate_nested_attributes attrs req (λ p, AtMapKey p key) resp)
                    resp m
            end
        | NestingModeSingle =>
            match AttributeConfig req ≫= AsObjectValuable with
            | None =>
                resp_AddAttributeError resp (AttributePath req) summary_InvalidValueType
                  (detail_InvalidValueType "ObjectValuable" (AttributeConfig req) nm (AttributePath req))
            | Some (o, diags) =>
                let resp := record_call (CallToObjectValue (AttributePath req)) resp in
                let resp := resp_Append resp (of_message <$> diags) in
                if HasError (Diagnostics resp) then resp
                else if ObjectIsNull o || ObjectIsUnknown o then resp
                else validate_nested_attributes attrs req (λ p, p) resp
            end
        | NestingModeUnknown =>
            (* default: *)
            resp_AddAttributeError resp (AttributePath req) summary_AttributeValidationError
              (detail_UnknownNestingMode nm (AttributePath req))
        end
  end.

End NestedAttributes.

(** The assignment [req.AttributeConfig = attributeConfig]. *)
Definition with_AttributeConfig (req : ValidateAttributeRequest) (attributeConfig : Value) : ValidateAttributeRequest :=
  {| AttributePath := AttributePath req;
     AttributePathExpression := AttributePathExpression req;
     RequestConfig := RequestConfig req;
     AttributeConfig := Some attributeConfig |}.

(** The loop over the validators of an attribute. *)
Definition run_validators (validators : list Validator)
    (req : ValidateAttributeRequest) (resp : ValidateAttributeResponse) : ValidateAttributeResponse :=
  fold_left
    (λ resp validator,
       set_Diagnostics (record_call (CallValidate (Description validator) (AttributePath req)) resp)
                       (Validate validator req (Diagnostics resp)))
    validators resp.

(** [AttributeValidate] performs all validation of an attribute. *)
Fixpoint AttributeValidate (a : Attribute) (req : ValidateAttributeRequest)
    (resp : ValidateAttributeResponse) {struct a} : ValidateAttributeResponse :=
  if AsTfsdkAttribute a && AttrType_is_nil (GetType a) then
    resp_AddAttributeError resp (AttributePath req)
      summary_InvalidAttributeDefinition detail_MissingTypeOrAttributes
  else if AsTfsdkAttribute a && (0 <? size (tfsdk_GetAttributes a))%nat
          && NestingMode_eqb (tfsdk_GetNestingMode a) NestingModeUnknown then
    resp_AddAttributeError resp (AttributePath req)
      summary_InvalidAttributeDefinition detail_BothTypeAndAttributes
  else if negb (IsRequired a) && negb (IsOptional a) && negb (IsComputed a) then
    resp_AddAttributeError resp (AttributePath req)
      summary_InvalidAttributeDefinition detail_MissingRequiredOptionalComputed
  else
    let '(attributeConfig, diags) := ValueAtPath (RequestConfig req) (AttributePath req) in
    let resp := record_call (CallValueAtPath (AttributePath req)) resp in
    let resp := resp_Append resp diags in
    if HasError diags then resp
    else
      let resp :=
        if IsComputed a && negb (IsOptional a) && negb (IsNull attributeConfig) then
          resp_AddAttributeError resp (AttributePath req)
            summary_ReadOnlyAttribute detail_ReadOnlyAttribute
        else resp in
      let resp :=
        if IsRequired a && IsNull attributeConfig then
          resp_AddAttributeError resp (AttributePath req)
            summary_MissingRequiredAttribute (detail_MissingRequiredAttribute (AttributePath req))
        else resp in
      let req := with_AttributeConfig req attributeConfig in
      let resp :=
        match AsAttributeWithValidators a with
        | Some validators => run_validators validators req resp
        | None => resp
        end in
      let resp := AttributeValidateNestedAttributes_body AttributeValidate a req resp in
      if negb (String.eqb (GetDeprecationMessage a) "")
         && negb (IsNull attributeConfig) && negb (IsUnknown attributeConfig) then
        resp_AddAttributeWarning resp (AttributePath req)
          summary_AttributeDeprecated [Text (GetDeprecationMessage a)]
      else resp.

(** [AttributeValidateNestedAttributes] performs all validation of the
    nested attributes of an attribute. *)
Definition AttributeValidateNestedAttributes :
    Attribute → ValidateAttributeRequest → ValidateAttributeResponse → ValidateAttributeResponse :=
  AttributeValidateNestedAttributes_body AttributeValidate.

(** ** Equality of nested attribute objects *)

Section Equal.

(** [attr.Type.Equal] and [Attribute.Equal] are methods of interfaces whose
    implementations are not among the sources: they are taken as they
    come. *)
Variable Type_Equal : AttrType → AttrType → bool.
Variable Attribute_Equal : Attribute → Attribute → bool.

(** The loop of [NestedAttributeObject.Equal] over the entries of
    [o.Attributes] in the order the [range] visits them; it returns at the
    first name that [other] lacks or whose attributes differ. *)
Fixpoint Equal_range (entries : list (string * Attribute)) (other : NestedAttributeObject) : bool :=
  match entries with
  | [] => true
  | (name, oAttribute) :: entries =>
      match NestedAttributeObject_Attributes other !! name with
      | None => false
      | Some otherAttribute =>
          if negb (Attribute_Equal oAttribute otherAttribute) then false
          else Equal_range entries other
      end
  end.

(** [NestedAttributeObject.Equal], for a [range] that visits the entries of
    [o.Attributes] in the order [entries]. *)
Definition NestedAttributeObject_Equal_in (entries : list (string * Attribute))
    (o other : NestedAttributeObject) : bool :=
  if negb (Type_Equal (NestedAttributeObject_Type o) (NestedAttributeObject_Type other)) then false
  else if negb (size (NestedAttributeObject_Attributes o) =? size (NestedAttributeObject_Attributes other))%nat then false
  else Equal_range entries other.

Definition NestedAttributeObject_Equal (o other : NestedAttributeObject) : bool :=
  NestedAttributeObject_Equal_in (map_to_list (NestedAttributeObject_Attributes o)) o other.

End Equal.

(** Modelled from the spec: the [Equal] of the types (package types) is not
    among the sources.  Two types are equal when they are the same variant
    and their parameters are equal in turn; two object types, when they have
    as many fields and every field of the one is a field of equal type of
    the other. *)
Fixpoint AttrType_Equal (t candidate : AttrType) {struct t} : bool :=
  match t, candidate with
  | NilType, NilType
  | BoolType, BoolType
  | StringType, StringType
  | Int64Type, Int64Type
  | Float64Type, Float64Type => true
  | ListType elemType, ListType other
  | SetType elemType, SetType other
  | MapType elemType, MapType other => AttrType_Equal elemType other
  | ObjectType attrTypes, ObjectType other =>
      (size attrTypes =? size other)%nat
      && map_fold
           (λ name attrType equal,
              equal && match other !! name with
                       | Some otherType => AttrType_Equal attrType otherType
                       | None => false
                       end)
           true attrTypes
  | _, _ => false
  end.

(** The number of type constructors of a type. *)
Fixpoint AttrType_size (t : AttrType) : nat :=
  match t with
  | ListType elemType | SetType elemType | MapType elemType => S (AttrType_size elemType)
  | ObjectType attrTypes =>
      S (map_fold (λ _ attrType total, AttrType_size attrType + total) 0 attrTypes)
  | _ => 1
  end.

(** ** The steppers outside the sources *)

(** Modelled from the spec: the [ApplyTerraform5AttributePathStep] of the
    types (package types) is not among the sources.  An element step applies
    to the collection of its kind and yields the element type; an attribute
    name applies to an object and yields the type of that field. *)
Definition Type_ApplyTerraform5AttributePathStep (t : AttrType) (step : AttributePathStep) : result Node :=
  match t, step with
  | ListType elemType, ElementKeyInt _ => Ok (NType elemType)
  | SetType elemType, ElementKeyValue _ => Ok (NType elemType)
  | MapType elemType, ElementKeyString _ => Ok (NType elemType)
  | ObjectType attrTypes, AttributeName name =>
      match attrTypes !! name with
      | Some attrType => Ok (NType attrType)
      | None => Err (ErrNotFound "ObjectType" name)
      end
  | _, _ => Err (ErrCannotApplyStep "type" step)
  end.

Definition step_matches_mode (nm : NestingMode) (step : AttributePathStep) : bool :=
  match nm, step with
  | NestingModeList, ElementKeyInt _
  | NestingModeSet, ElementKeyValue _
  | NestingModeMap, ElementKeyString _ => true
  | _, _ => false
  end.

(** Modelled from the spec: the steppers of the attribute and block
    implementations and of the holders of nested attributes and of nested
    blocks are not among the sources.  A leaf attribute steps into its type.
    A nested attribute or a block of a collection mode takes the element
    step of that collection and yields the holder of its contents; in mode
    single it takes an attribute name.  A holder takes an attribute name.
    Any other value is no stepper. *)
Definition model_step (n : Node) (step : AttributePathStep) : result Node :=
  match n with
  | NType t => Type_ApplyTerraform5AttributePathStep t step
  | NAttribute a =>
      match AsNestedAttribute a with
      | None | Some (NestingModeUnknown, _) => Type_ApplyTerraform5AttributePathStep (GetType a) step
      | Some (NestingModeSingle, o) => NestedAttributeObject_ApplyTerraform5AttributePathStep o step
      | Some (nm, o) =>
          if step_matches_mode nm step then Ok (NUnderlyingAttributes (NestedAttributeObject_Attributes o))
          else Err (ErrCannotApplyStep "nested attribute" step)
      end
  | NUnderlyingAttributes attrs =>
      match step with
      | AttributeName name =>
          match attrs !! name with
          | Some attribute => Ok (NAttribute attribute)
          | None => Err (ErrNotFound "UnderlyingAttributes" name)
          end
      | _ => Err (ErrCannotApplyStep "UnderlyingAttributes" step)
      end
  | NBlock b =>
      match step with
      | ElementKeyInt _ | ElementKeyValue _ => Ok (NNestedBlock b)
      | _ => Err (ErrCannotApplyStep "block" step)
      end
  | NNestedBlock b =>
      match step with
      | AttributeName name =>
          match Block_Attributes b !! name with
          | Some attribute => Ok (NAttribute attribute)
          | None =>
              match Block_Blocks b !! name with
              | Some block => Ok (NBlock block)
              | None => Err (ErrNotFound "NestedBlock" name)
              end
          end
      | _ => Err (ErrCannotApplyStep "NestedBlock" step)
      end
  | _ => Err ErrNotAttributePathStepper
  end.

(** The walk along the steps [more] inside a type. *)
Fixpoint Type_walk (t : AttrType) (more : tftypes_AttributePath) : result AttrType :=
  match more with
  | [] => Ok t
  | step :: more =>
      match Type_ApplyTerraform5AttributePathStep t step with
      | Ok (NType t') => Type_walk t' more
      | Ok _ => Err ErrNotAttributePathStepper
      | Err e => Err e
      end
  end.

(** ** Parts of the validation of an attribute, for the statements below *)

(** What [AttributeValidate] does between the check of a required value and
    the deprecation warning: the validators, then the nested attributes. *)
Definition validators_then_nested (a : Attribute) (req : ValidateAttributeRequest)
    (resp : ValidateAttributeResponse) : ValidateAttributeResponse :=
  AttributeValidateNestedAttributes a req
    match AsAttributeWithValidators a with
    | Some validators => run_validators validators req resp
    | None => resp
    end.

(** The three checks of the definition of an attribute with which
    [AttributeValidate] starts. *)
Definition definition_checks_pass (a : Attribute) : bool :=
  negb (AsTfsdkAttribute a && AttrType_is_nil (GetType a))
  && negb (AsTfsdkAttribute a && (0 <? size (tfsdk_GetAttributes a))%nat
           && NestingMode_eqb (tfsdk_GetNestingMode a) NestingModeUnknown)
  && negb (negb (IsRequired a) && negb (IsOptional a) && negb (IsComputed a)).

(** The attribute with its deprecation message emptied. *)
Definition without_deprecation (a : Attribute) : Attribute :=
  MkAttribute (AsTfsdkAttribute a) (GetType a) (IsRequired a) (IsOptional a) (IsComputed a)
              "" (AsAttributeWithValidators a) (AsNestedAttribute a).

(** The definition passes the checks, the value at the path of the request
    is fetched without error and is neither null nor unknown, and the
    deprecation message is not empty. *)
Definition deprecation_warning_due (a : Attribute) (req : ValidateAttributeRequest) : bool :=
  let '(attributeConfig, diags) := ValueAtPath (RequestConfig req) (AttributePath req) in
  definition_checks_pass a
  && negb (HasError diags)
  && negb (String.eqb (GetDeprecationMessage a) "")
  && negb (IsNull attributeConfig) && negb (IsUnknown attributeConfig).

(** ** The other methods of the schema *)

(** [schemaAttributes] and [schemaBlocks] copy a map entry by entry into a
    fresh map of the interface type. *)
Definition schemaAttributes (attributes : gmap string Attribute) : gmap string Attribute :=
  map_fold (λ name attribute result, <[name := attribute]> result) ∅ attributes.

Definition schemaBlocks (blocks : gmap string Block) : gmap string Block :=
  map_fold (λ name block result, <[name := block]> result) ∅ blocks.

(** [Schema.GetAttributes] and [Schema.GetBlocks]. *)
Definition Schema_GetAttributes (s : Schema) : gmap string Attribute :=
  schemaAttributes (Schema_Attributes s).

Definition Schema_GetBlocks (s : Schema) : gmap string Block :=
  schemaBlocks (Schema_Blocks s).

Definition summary_InvalidSchemaPath : string := "Invalid Schema Path".

Section SchemaPath.

Variable implStep : Node → AttributePathStep → result Node.

(** [totftypes.AttributePath] turns a path of the framework into a path of
    the wire protocol and is not among the sources; neither is the text of an
    error ([%s] of an error).  Both are taken as they come. *)
Variable totftypes_AttributePath : Path → tftypes_AttributePath * diag_Diagnostics.
Variable error_text : error → string.

Definition detail_InvalidSchemaPath (what : string) (schemaPath : Path) (err : error) : list DetailPart :=
  [Text ("When attempting to get the framework " +:+ what
         +:+ " associated with a schema path, an unexpected error was returned. "
         +:+ "This is always an issue with the provider. Please report this to the provider developers."
         +:+ nl +:+ nl +:+ "Path: ");
   PathText schemaPath;
   Text (nl +:+ "Original Error: " +:+ error_text err)].

(** [Schema.AttributeAtPath]: the attribute (nil is [None]) and the
    diagnostics. *)
Definition Schema_AttributeAtPath (s : Schema) (schemaPath : Path) : option Attribute * diag_Diagnostics :=
  let diags : diag_Diagnostics := [] in
  let '(tftypesPath, tftypesDiags) := totftypes_AttributePath schemaPath in
  let diags := Append diags tftypesDiags in
  if HasError diags then (None, diags)
  else
    match Schema_AttributeAtTerraformPath implStep s tftypesPath with
    | Err err =>
        (None, AddAttributeError diags schemaPath summary_InvalidSchemaPath
                 (detail_InvalidSchemaPath "attribute" schemaPath err))
    | Ok attribute => (Some attribute, diags)
    end.

(** [Schema.TypeAtPath]: the type (nil is [NilType]) and the diagnostics. *)
Definition Schema_TypeAtPath (s : Schema) (schemaPath : Path) : AttrType * diag_Diagnostics :=
  let diags : diag_Diagnostics := [] in
  let '(tftypesPath, tftypesDiags) := totftypes_AttributePath schemaPath in
  let diags := Append diags tftypesDiags in
  if HasError diags then (NilType, diags)
  else
    match Schema_TypeAtTerraformPath implStep s tftypesPath with
    | Err err =>
        (NilType, AddAttributeError diags schemaPath summary_InvalidSchemaPath
                    (detail_InvalidSchemaPath "type" schemaPath err))
    | Ok attrType => (attrType, diags)
    end.

End SchemaPath.

(** ** Measures of an attribute, for the statements below *)

(** The number of attributes in the tree of an attribute. *)
Fixpoint Attribute_size (a : Attribute) : nat :=
  S match AsNestedAttribute a with
    | Some (_, nestedObject) =>
        map_fold (λ _ nestedAttr total, Attribute_size nestedAttr + total) 0
                 (NestedAttributeObject_Attributes nestedObject)
    | None => 0
    end.

(** The validators of an attribute and of all the attributes nested in
    it. *)
Fixpoint Attribute_validators (a : Attribute) : list Validator :=
  (default [] (AsAttributeWithValidators a)
   ++ match AsNestedAttribute a with
      | Some (_, nestedObject) =>
          map_fold (λ _ nestedAttr validators,
                      (Attribute_validators nestedAttr ++ validators)%list) []
                   (NestedAttributeObject_Attributes nestedObject)
      | None => []
      end)%list.

(** A validator that only adds diagnostics to those of the response. *)
Definition appends_only (validator : Validator) : Prop :=
  ∀ req diags, diags `prefix_of` Validate validator req diags.

(** The error diagnostic for a value that is set for a read-only
    attribute. *)
Definition read_only_error (p : Path) : Diagnostic :=
  MkDiagnostic SeverityError (Some p) "Invalid Configuration for Read-Only Attribute"
               detail_ReadOnlyAttribute.

(** The error diagnostic for a required attribute whose value is null. *)
Definition missing_required_error (p : Path) : Diagnostic :=
  MkDiagnostic SeverityError (Some p) "Missing Configuration for Required Attribute"
               (detail_MissingRequiredAttribute p).

(** The nesting modes with nested attributes, and for each the conversion
    that the nested validation asks of the value. *)
Definition converts_for (nm : NestingMode) (attributeConfig : option Value) : bool :=
  match nm with
  | NestingModeList => bool_decide (is_Some (attributeConfig ≫= AsListValuable))
  | NestingModeSet => bool_decide (is_Some (attributeConfig ≫= AsSetValuable))
  | NestingModeMap => bool_decide (is_Some (attributeConfig ≫= AsMapValuable))
  | NestingModeSingle => bool_decide (is_Some (attributeConfig ≫= AsObjectValuable))
  | NestingModeUnknown => false
  end.

(** A required attribute that has no validators and no nested attributes
    and whose definition passes the checks. *)
Definition required_leaf (a : Attribute) : bool :=
  IsRequired a && definition_checks_pass a
  && match AsAttributeWithValidators a with None => true | Some _ => false end
  && match AsNestedAttribute a with None => true | Some _ => false end.

(** The configuration sets no value at the path: the value there is fetched
    without diagnostics and is null. *)
Definition unset_at (config : Config) (p : Path) : Prop :=
  ∃ attributeConfig, ValueAtPath config p = (attributeConfig, []) ∧ IsNull attributeConfig = true.

(** What [AttributeValidate] does after the validators and the nested
    attributes: the deprecation warning for the value fetched. *)
Definition deprecation_step (a : Attribute) (req : ValidateAttributeRequest)
    (attributeConfig : Value) (resp : ValidateAttributeResponse) : ValidateAttributeResponse :=
  if negb (String.eqb (GetDeprecationMessage a) "")
     && negb (IsNull attributeConfig) && negb (IsUnknown attributeConfig) then
    resp_AddAttributeWarning resp (AttributePath req)
      summary_AttributeDeprecated [Text (GetDeprecationMessage a)]
  else resp.

End DiagnosticsEquality.

Arguments Ok {A} a.
Arguments Err {A} e.

(** ** Sample data *)

Module Sample.

(** Values as the base types build them: a conversion of a base value
    returns the value itself and no diagnostics. *)
Definition StringNull : Value := MkValue true false None None None None.
Definition StringUnknown : Value := MkValue false true None None None None.
Definition StringKnown : Value := MkValue false false None None None None.
Definition ObjectKnown : Value :=
  MkValue false false None None None (Some (MkObjectValue false false, [])).
Definition ObjectNull : Value :=
  MkValue true false None None None (Some (MkObjectValue true false, [])).
Definition ListKnown (elements : list Value) : Value :=
  MkValue false false (Some (elements, [])) None None None.

Definition required_string : Attribute :=
  MkAttribute false StringType true false false "" None None.
Definition optional_string : Attribute :=
  MkAttribute false StringType false true false "" None None.
Definition deprecated_string : Attribute :=
  MkAttribute false StringType false true false "use other" None None.
Definition undefined_string : Attribute :=
  MkAttribute false StringType false false false "" None None.
Definition tags : Attribute :=
  MkAttribute false (ListType StringType) false true false "" None None.

Definition nic : NestedAttributeObject :=
  MkNestedAttributeObject {[ "mac" := required_string ]} None.
Definition nics : Attribute :=
  MkAttribute false (ListType (NestedAttributeObject_Type nic)) false true false "" None
              (Some (NestingModeList, nic)).

Definition machine : NestedAttributeObject :=
  MkNestedAttributeObject (<[ "name" := required_string ]> {[ "nics" := nics ]}) None.
Definition vm : Attribute :=
  MkAttribute false (NestedAttributeObject_Type machine) false true false "" None
              (Some (NestingModeSingle, machine)).

Definition timeouts : Block :=
  MkBlock (ListType (ObjectType {[ "read" := StringType ]}))
          {[ "read" := optional_string ]} ∅.

Definition schema : Schema :=
  MkSchema (<[ "vm" := vm ]> (<[ "tags" := tags ]> {[ "name" := required_string ]}))
           {[ "timeouts" := timeouts ]} "" "" "".

(** A schema in which the name [both] is an attribute and a block. *)
Definition colliding : Schema :=
  MkSchema {[ "both" := required_string ]} {[ "both" := timeouts ]} "" "" "".

(** A configuration: the machine is set, its name is not, and it has one
    network interface whose address is not set. *)
Definition config : Config :=
  MkConfig (λ p,
    match p with
    | [PathStepAttributeName "vm"] => (ObjectKnown, [])
    | [PathStepAttributeName "vm"; PathStepAttributeName "name"] => (StringNull, [])
    | [PathStepAttributeName "vm"; PathStepAttributeName "nics"] => (ListKnown [ObjectKnown], [])
    | [PathStepAttributeName "vm"; PathStepAttributeName "nics";
       PathStepElementKeyInt 0%Z; PathStepAttributeName "mac"] => (StringNull, [])
    | _ => (StringKnown, [])
    end).

Definition request (p : Path) : ValidateAttributeRequest := MkRequest p p config None.

Definition vm_path : Path := [PathStepAttributeName "vm"].
Definition name_path : Path := AtName vm_path "name".
Definition nics_path : Path := AtName vm_path "nics".
Definition mac_path : Path := AtName (AtListIndex nics_path 0) "mac".

Definition missing (p : Path) : Diagnostic :=
  NewAttributeErrorDiagnostic p summary_MissingRequiredAttribute (detail_MissingRequiredAttribute p).

Definition empty_response : ValidateAttributeResponse := MkResponse [] [].

(** An equality of values that compares what [IsNull] and [IsUnknown]
    return and which conversions the values have, and an equality of details
    that compares their texts. *)
Definition Value_eqb (v w : Value) : bool :=
  Bool.eqb (IsNull v) (IsNull w) && Bool.eqb (IsUnknown v) (IsUnknown w)
  && Bool.eqb (bool_decide (is_Some (AsListValuable v))) (bool_decide (is_Some (AsListValuable w)))
  && Bool.eqb (bool_decide (is_Some (AsSetValuable v))) (bool_decide (is_Some (AsSetValuable w)))
  && Bool.eqb (bool_decide (is_Some (AsMapValuable v))) (bool_decide (is_Some (AsMapValuable w)))
  && Bool.eqb (bool_decide (is_Some (AsObjectValuable v)))
              (bool_decide (is_Some (AsObjectValuable w))).

Definition DetailPart_eqb (a b : DetailPart) : bool :=
  match a, b with
  | Text s, Text t => String.eqb s t
  | PathText p, PathText q => Path_Equal (MkEquality Value_eqb (λ _ _, true)) p q
  | ValueTypeText v, ValueTypeText w =>
      match v, w with
      | Some v, Some w => Value_eqb v w
      | None, None => true
      | _, _ => false
      end
  | NestingModeTypeText, NestingModeTypeText => true
  | NestingModeText nm, NestingModeText nm' => NestingMode_eqb nm nm'
  | _, _ => false
  end.

Fixpoint Detail_eqb (a b : list DetailPart) : bool :=
  match a, b with
  | [], [] => true
  | x :: a, y :: b => DetailPart_eqb x y && Detail_eqb a b
  | _, _ => false
  end.

Definition equal : Equality := MkEquality Value_eqb Detail_eqb.

(** The response as the validation of the sibling [name] leaves it. *)
Definition after_name : ValidateAttributeResponse :=
  AttributeValidate equal required_string (request name_path) empty_response.

Definition Attribute_eqb_flags (a b : Attribute) : bool :=
  Bool.eqb (IsRequired a) (IsRequired b) && Bool.eqb (IsOptional a) (IsOptional b)
  && Bool.eqb (IsComputed a) (IsComputed b).

(** A configuration that sets nothing. *)
Definition unset : Config := MkConfig (λ _, (StringNull, [])).

Definition SetKnown (elements : list Value) : Value :=
  MkValue false false None (Some (elements, [])) None None.
Definition MapKnown (elements : gmap string Value) : Value :=
  MkValue false false None None (Some (elements, [])) None.

Definition nic_set : Attribute :=
  MkAttribute false (SetType (NestedAttributeObject_Type nic)) false true false "" None
              (Some (NestingModeSet, nic)).
Definition nic_map : Attribute :=
  MkAttribute false (MapType (NestedAttributeObject_Type nic)) false true false "" None
              (Some (NestingModeMap, nic)).
Definition nic_single : Attribute :=
  MkAttribute false (NestedAttributeObject_Type nic) false true false "" None
              (Some (NestingModeSingle, nic)).
Definition nic_unknown_mode : Attribute :=
  MkAttribute false (NestedAttributeObject_Type nic) false true false "" None
              (Some (NestingModeUnknown, nic)).

Definition computed_string : Attribute :=
  MkAttribute false StringType false false true "" None None.
Definition required_computed_string : Attribute :=
  MkAttribute false StringType true false true "" None None.

(** A validator that adds a warning, and one that adds an error. *)
Definition warn : Validator :=
  MkValidator "warn"
    (λ req diags, Append equal diags [NewAttributeWarningDiagnostic (AttributePath req) "Warning" []]).
Definition reject : Validator :=
  MkValidator "reject"
    (λ req diags, Append equal diags [NewAttributeErrorDiagnostic (AttributePath req) "Rejected" []]).
Definition validated_string : Attribute :=
  MkAttribute false StringType true false false "" (Some [warn; reject]) None.

(** A configuration whose fetch of any value fails. *)
Definition failing : Config :=
  MkConfig (λ p, (StringNull, [NewAttributeErrorDiagnostic p "Read Error" []])).

End Sample.

(** * Path resolution *)

Section PathResolutionFacts.

Variable implStep : Node → AttributePathStep → result Node.

(** Each step of a successful walk is consumed: nothing remains. *)
Lemma WalkAttributePath_done n path res remaining :
  WalkAttributePath implStep n path = (res, remaining, None) → remaining = [].
Proof.
  revert n. induction path as [|step rest IH]; intros n; simpl.
  - by intros [= _ <-].
  - destruct (ApplyTerraform5AttributePathStep implStep n step); [apply IH | done].
Qed.

(** A walk along [path ++ more] is the walk along [path] followed, from
    the node it reaches, by the walk along [more]. *)
Lemma WalkAttributePath_app n path more res remaining :
  WalkAttributePath implStep n path = (res, remaining, None) →
  WalkAttributePath implStep n (path ++ more) = WalkAttributePath implStep res more.
Proof.
  revert n. induction path as [|step rest IH]; intros n; simpl.
  - by intros [= -> _].
  - destruct (ApplyTerraform5AttributePathStep implStep n step); [apply IH | done].
Qed.

(** C2: when the walk of a path ends at an attribute,
    [Schema.AttributeAtTerraformPath] returns that attribute and no error;
    at a bare type, a holder of underlying attributes or a holder of a
    nested block it returns [ErrPathInsideAtomicAttribute]; at a block it
    returns [ErrPathIsBlock], a different error; at a value of any other
    kind it returns the unexpected-type error, which is neither of the
    two. *)
Theorem AttributeAtTerraformPath_outcomes (s : Schema) (path : tftypes_AttributePath)
    (res : Node) (remaining : tftypes_AttributePath) :
  WalkAttributePath implStep (NSchema s) path = (res, remaining, None) →
  match res with
  | NAttribute a => Schema_AttributeAtTerraformPath implStep s path = Ok a
  | NType _ | NUnderlyingAttributes _ | NNestedBlock _ =>
      Schema_AttributeAtTerraformPath implStep s path = Err ErrPathInsideAtomicAttribute
  | NBlock _ =>
      Schema_AttributeAtTerraformPath implStep s path = Err ErrPathIsBlock
      ∧ ErrPathIsBlock ≠ ErrPathInsideAtomicAttribute
  | NSchema _ | NNestedAttributeObject _ | NOther _ =>
      Schema_AttributeAtTerraformPath implStep s path = Err (ErrAttributeAtUnexpectedType res)
      ∧ ErrAttributeAtUnexpectedType res ≠ ErrPathInsideAtomicAttribute
      ∧ ErrAttributeAtUnexpectedType res ≠ ErrPathIsBlock
  end.
Proof.
  intros Hwalk. unfold Schema_AttributeAtTerraformPath. rewrite Hwalk.
  destruct res; repeat split; congruence.
Qed.

(** A walk that stops at a step that does not apply is reported with the
    steps that remain; none of the outcomes above is returned. *)
Lemma AttributeAtTerraformPath_walk_error (s : Schema) path n remaining err :
  WalkAttributePath implStep (NSchema s) path = (n, remaining, Some err) →
  Schema_AttributeAtTerraformPath implStep s path = Err (ErrStillRemains remaining err).
Proof. intros Hwalk. unfold Schema_AttributeAtTerraformPath. by rewrite Hwalk. Qed.

(** C3: when the walk of a path ends at a bare type,
    [Schema.AttributeAtTerraformPath] returns
    [ErrPathInsideAtomicAttribute] while [Schema.TypeAtTerraformPath]
    succeeds with that type. *)
Theorem TypeAtTerraformPath_inside_atomic (s : Schema) (path : tftypes_AttributePath)
    (t : AttrType) (remaining : tftypes_AttributePath) :
  WalkAttributePath implStep (NSchema s) path = (NType t, remaining, None) →
  Schema_AttributeAtTerraformPath implStep s path = Err ErrPathInsideAtomicAttribute
  ∧ Schema_TypeAtTerraformPath implStep s path = Ok t.
Proof.
  intros Hwalk.
  unfold Schema_AttributeAtTerraformPath, Schema_TypeAtTerraformPath.
  by rewrite Hwalk.
Qed.

(** [Schema.TypeAtTerraformPath] fails in two cases only: a step of the
    path could not be applied, or the walk ended at a value that is none
    of type, holder, attribute, block and schema. *)
Lemma TypeAtTerraformPath_error (s : Schema) path e :
  Schema_TypeAtTerraformPath implStep s path = Err e →
  (∃ n remaining cause,
      WalkAttributePath implStep (NSchema s) path = (n, remaining, Some cause)
      ∧ e = ErrStillRemains remaining cause)
  ∨ (∃ res,
      WalkAttributePath implStep (NSchema s) path = (res, [], None)
      ∧ e = ErrTypeAtUnexpectedType res
      ∧ ((∃ o, res = NNestedAttributeObject o) ∨ (∃ name, res = NOther name))).
Proof.
  unfold Schema_TypeAtTerraformPath.
  destruct (WalkAttributePath implStep (NSchema s) path) as [[res remaining] [cause|]] eqn:Hwalk.
  - intros [= <-]. left. eauto.
  - pose proof (WalkAttributePath_done _ _ _ _ Hwalk) as ->.
    destruct res; intros [= <-]; right; eauto 10.
Qed.

(** C4: when [Schema.AttributeAtTerraformPath] returns an attribute,
    [Schema.TypeAtTerraformPath] succeeds on the same path and returns the
    [GetType] of that attribute. *)
Theorem TypeAtTerraformPath_of_attribute (s : Schema) (path : tftypes_AttributePath)
    (a : Attribute) :
  Schema_AttributeAtTerraformPath implStep s path = Ok a →
  Schema_TypeAtTerraformPath implStep s path = Ok (GetType a).
Proof.
  unfold Schema_AttributeAtTerraformPath, Schema_TypeAtTerraformPath.
  destruct (WalkAttributePath implStep (NSchema s) path) as [[res remaining] [cause|]];
    [done|].
  destruct res; try done. by intros [= ->].
Qed.

End PathResolutionFacts.

Lemma AttributeAtTerraformPath_outcomes_witness :
  WalkAttributePath model_step (NSchema Sample.schema) [AttributeName "name"]
  = (NAttribute Sample.required_string, [], None)
  ∧ Schema_AttributeAtTerraformPath model_step Sample.schema [AttributeName "name"]
    = Ok Sample.required_string.
Proof.
  split; [vm_compute; reflexivity|].
  refine (AttributeAtTerraformPath_outcomes model_step Sample.schema
            [AttributeName "name"] (NAttribute Sample.required_string) [] _).
  vm_compute; reflexivity.
Defined.

Lemma TypeAtTerraformPath_inside_atomic_witness :
  WalkAttributePath model_step (NSchema Sample.schema) [AttributeName "tags"; ElementKeyInt 0]
  = (NType StringType, [], None)
  ∧ Schema_AttributeAtTerraformPath model_step Sample.schema [AttributeName "tags"; ElementKeyInt 0]
    = Err ErrPathInsideAtomicAttribute
  ∧ Schema_TypeAtTerraformPath model_step Sample.schema [AttributeName "tags"; ElementKeyInt 0]
    = Ok StringType.
Proof.
  split; [vm_compute; reflexivity|].
  apply (TypeAtTerraformPath_inside_atomic model_step Sample.schema
           [AttributeName "tags"; ElementKeyInt 0] StringType []).
  vm_compute; reflexivity.
Defined.

Lemma TypeAtTerraformPath_of_attribute_witness :
  Schema_AttributeAtTerraformPath model_step Sample.schema [AttributeName "tags"] = Ok Sample.tags
  ∧ Schema_TypeAtTerraformPath model_step Sample.schema [AttributeName "tags"]
    = Ok (ListType StringType).
Proof.
  split; [vm_compute; reflexivity|].
  apply (TypeAtTerraformPath_of_attribute model_step Sample.schema [AttributeName "tags"] Sample.tags).
  vm_compute; reflexivity.
Defined.

(** The outcomes on the sample schema: a block, the schema itself (the empty
    path), the holder of the attributes of a nested attribute, and a step
    that does not apply. *)
Example AttributeAtTerraformPath_block :
  Schema_AttributeAtTerraformPath model_step Sample.schema [AttributeName "timeouts"]
  = Err ErrPathIsBlock.
Proof. vm_compute; reflexivity. Qed.

Example AttributeAtTerraformPath_empty_path :
  Schema_AttributeAtTerraformPath model_step Sample.schema []
  = Err (ErrAttributeAtUnexpectedType (NSchema Sample.schema)).
Proof. reflexivity. Qed.

Example AttributeAtTerraformPath_nested_block :
  Schema_AttributeAtTerraformPath model_step Sample.schema [AttributeName "timeouts"; ElementKeyInt 0]
  = Err ErrPathInsideAtomicAttribute.
Proof. vm_compute; reflexivity. Qed.

Example AttributeAtTerraformPath_step_fails :
  Schema_AttributeAtTerraformPath model_step Sample.schema [AttributeName "name"; ElementKeyInt 0]
  = Err (ErrStillRemains [ElementKeyInt 0] (ErrCannotApplyStep "type" (ElementKeyInt 0))).
Proof. vm_compute; reflexivity. Qed.

Example NestedAttributeObject_step :
  WalkAttributePath model_step (NNestedAttributeObject Sample.machine) [AttributeName "name"]
  = (NAttribute Sample.required_string, [], None).
Proof. vm_compute; reflexivity. Qed.

Lemma Type_step_yields_type t step n :
  Type_ApplyTerraform5AttributePathStep t step = Ok n → ∃ t', n = NType t'.
Proof.
  destruct t, step; simpl; try done; try (intros [= <-]; eauto).
  destruct (_ !! _); [intros [= <-]; eauto | done].
Qed.

Lemma WalkAttributePath_in_type t more :
  match Type_walk t more with
  | Ok t' => WalkAttributePath model_step (NType t) more = (NType t', [], None)
  | Err _ => ∃ n remaining cause,
      WalkAttributePath model_step (NType t) more = (n, remaining, Some cause)
  end.
Proof.
  revert t. induction more as [|step more IH]; intros t; simpl; [done|].
  destruct (Type_ApplyTerraform5AttributePathStep t step) as [n|e] eqn:Hstep; [|eauto].
  destruct (Type_step_yields_type _ _ _ Hstep) as [t' ->]. apply IH.
Qed.

(** With the stepper of the spec: below a leaf attribute, on the steps that
    its type takes, [Schema.AttributeAtTerraformPath] answers
    [ErrPathInsideAtomicAttribute] and [Schema.TypeAtTerraformPath] the type
    reached; on a step that the type does not take, the latter fails. *)
Lemma TypeAtTerraformPath_inside_leaf (s : Schema) path (a : Attribute) step more :
  Schema_AttributeAtTerraformPath model_step s path = Ok a →
  AsNestedAttribute a = None →
  match Type_walk (GetType a) (step :: more) with
  | Ok t =>
      Schema_AttributeAtTerraformPath model_step s (path ++ step :: more)
      = Err ErrPathInsideAtomicAttribute
      ∧ Schema_TypeAtTerraformPath model_step s (path ++ step :: more) = Ok t
  | Err _ =>
      ∃ remaining cause,
        Schema_TypeAtTerraformPath model_step s (path ++ step :: more)
        = Err (ErrStillRemains remaining cause)
  end.
Proof.
  intros Hattr Hleaf.
  assert (∃ remaining, WalkAttributePath model_step (NSchema s) path = (NAttribute a, remaining, None))
    as [remaining Hwalk].
  { unfold Schema_AttributeAtTerraformPath in Hattr.
    destruct (WalkAttributePath model_step (NSchema s) path) as [[res remaining] [cause|]]; [done|].
    destruct res; try done. injection Hattr as ->. eauto. }
  unfold Schema_AttributeAtTerraformPath, Schema_TypeAtTerraformPath.
  rewrite (WalkAttributePath_app _ _ _ _ _ _ Hwalk).
  change (Type_walk (GetType a) (step :: more))
    with (match Type_ApplyTerraform5AttributePathStep (GetType a) step with
          | Ok (NType t') => Type_walk t' more
          | Ok _ => Err ErrNotAttributePathStepper
          | Err e => Err e
          end).
  cbn [WalkAttributePath ApplyTerraform5AttributePathStep model_step]. rewrite Hleaf.
  destruct (Type_ApplyTerraform5AttributePathStep (GetType a) step) as [n|e] eqn:Hstep; [|eauto].
  destruct (Type_step_yields_type _ _ _ Hstep) as [t' ->].
  pose proof (WalkAttributePath_in_type t' more) as Hin.
  destruct (Type_walk t' more) as [t|e].
  - by rewrite Hin.
  - destruct Hin as (n & remaining' & cause & ->). eauto.
Qed.

(** * The type of a schema *)

(** Entering [f x] under every name of [m] into [init] leaves the names
    outside [m] as they were. *)
Lemma lookup_map_fold_insert {A B} (f : A → B) (m : gmap string A) (init : gmap string B) (k : string) :
  map_fold (λ name x acc, <[name := f x]> acc) init m !! k
  = match m !! k with Some x => Some (f x) | None => init !! k end.
Proof.
  apply (map_fold_weak_ind
           (λ r m, r !! k = match m !! k with Some x => Some (f x) | None => init !! k end)).
  - by rewrite lookup_empty.
  - intros i x m' r Hi IH.
    destruct (decide (i = k)) as [->|Hne].
    + by rewrite !lookup_insert_eq.
    + by rewrite !lookup_insert_ne.
Qed.

Lemma Schema_Type_lookup (s : Schema) :
  ∃ attrTypes, Schema_Type s = ObjectType attrTypes
  ∧ ∀ name, attrTypes !! name
            = match Schema_Blocks s !! name with
              | Some block => Some (Block_Type block)
              | None => GetType <$> Schema_Attributes s !! name
              end.
Proof.
  eexists. split; [reflexivity|]. intros name.
  rewrite lookup_map_fold_insert. destruct (Schema_Blocks s !! name); [done|].
  rewrite lookup_map_fold_insert, lookup_empty. by destruct (_ !! _).
Qed.

(** C9: when a name is a key of both the attributes and the blocks of a
    schema, [Schema.ApplyTerraform5AttributePathStep] returns the attribute
    of that name, and [Schema.Type] gives that name the type of the
    block. *)
Theorem Schema_name_collision (s : Schema) (name : string) (attr : Attribute) (block : Block) :
  Schema_Attributes s !! name = Some attr →
  Schema_Blocks s !! name = Some block →
  Schema_ApplyTerraform5AttributePathStep s (AttributeName name) = Ok (NAttribute attr)
  ∧ ∃ attrTypes, Schema_Type s = ObjectType attrTypes
                 ∧ attrTypes !! name = Some (Block_Type block).
Proof.
  intros Hattr Hblock. split.
  - unfold Schema_ApplyTerraform5AttributePathStep. by rewrite Hattr.
  - destruct (Schema_Type_lookup s) as (attrTypes & Htype & Hlookup).
    exists attrTypes. split; [done|]. by rewrite Hlookup, Hblock.
Qed.

Lemma Schema_name_collision_witness :
  Schema_Attributes Sample.colliding !! "both" = Some Sample.required_string
  ∧ Schema_Blocks Sample.colliding !! "both" = Some Sample.timeouts
  ∧ Schema_ApplyTerraform5AttributePathStep Sample.colliding (AttributeName "both")
    = Ok (NAttribute Sample.required_string)
  ∧ ∃ attrTypes, Schema_Type Sample.colliding = ObjectType attrTypes
                 ∧ attrTypes !! "both" = Some (Block_Type Sample.timeouts).
Proof.
  split; [vm_compute; reflexivity|]. split; [vm_compute; reflexivity|].
  apply (Schema_name_collision Sample.colliding "both" Sample.required_string Sample.timeouts);
    vm_compute; reflexivity.
Defined.

(** On the colliding name the two answers differ: the path resolves to the
    attribute, of type string, and the schema's type holds the list type of
    the block. *)
Example Schema_name_collision_types :
  Schema_TypeAtTerraformPath model_step Sample.colliding [AttributeName "both"] = Ok StringType
  ∧ Type_walk (Schema_Type Sample.colliding) [AttributeName "both"]
    = Ok (ListType (ObjectType {[ "read" := StringType ]})).
Proof. split; vm_compute; reflexivity. Qed.

(** * Equality of types *)

Lemma AttrType_size_field (attrTypes : gmap string AttrType) (name : string) (attrType : AttrType) :
  attrTypes !! name = Some attrType →
  AttrType_size attrType < AttrType_size (ObjectType attrTypes).
Proof.
  simpl. revert name attrType.
  apply (map_fold_weak_ind
           (λ total m, ∀ name attrType, m !! name = Some attrType →
                                         AttrType_size attrType < S total)).
  - intros name attrType. by rewrite lookup_empty.
  - intros i x m total Hi IH name attrType.
    destruct (decide (i = name)) as [->|Hne].
    + rewrite lookup_insert_eq. intros [= ->]. lia.
    + rewrite lookup_insert_ne by done. intros Hname. specialize (IH _ _ Hname). lia.
Qed.

(** Induction on a type, with the hypothesis for every field of an object
    type. *)
Lemma AttrType_nested_ind (P : AttrType → Prop) :
  P NilType → P BoolType → P StringType → P Int64Type → P Float64Type →
  (∀ elemType, P elemType → P (ListType elemType)) →
  (∀ elemType, P elemType → P (SetType elemType)) →
  (∀ elemType, P elemType → P (MapType elemType)) →
  (∀ attrTypes, (∀ name attrType, attrTypes !! name = Some attrType → P attrType) →
                P (ObjectType attrTypes)) →
  ∀ t, P t.
Proof.
  intros Hnil Hbool Hstring Hint Hfloat Hlist Hset Hmap Hobject t.
  remember (AttrType_size t) as n eqn:Hn. revert t Hn.
  induction n as [n IH] using lt_wf_ind. intros t ->.
  destruct t as [| | | | |elemType|elemType|elemType|attrTypes]; try done.
  - apply Hlist, (IH (AttrType_size elemType)); [simpl; lia | done].
  - apply Hset, (IH (AttrType_size elemType)); [simpl; lia | done].
  - apply Hmap, (IH (AttrType_size elemType)); [simpl; lia | done].
  - apply Hobject. intros name attrType Hname.
    by apply (IH (AttrType_size attrType)); [eapply AttrType_size_field|].
Qed.

(** The loop over the fields of an object type answers true exactly when
    every field has a field of equal type under its name in [other]. *)
Lemma AttrType_Equal_fields (equal : AttrType → AttrType → bool)
    (attrTypes other : gmap string AttrType) :
  map_fold (λ name attrType ok,
              ok && match other !! name with
                    | Some otherType => equal attrType otherType
                    | None => false
                    end) true attrTypes = true
  ↔ ∀ name attrType, attrTypes !! name = Some attrType →
      ∃ otherType, other !! name = Some otherType ∧ equal attrType otherType = true.
Proof.
  apply (map_fold_weak_ind
           (λ ok m, ok = true
                    ↔ ∀ name attrType, m !! name = Some attrType →
                        ∃ otherType, other !! name = Some otherType
                                     ∧ equal attrType otherType = true)).
  - split; [|done]. intros _ name attrType. by rewrite lookup_empty.
  - intros i x m ok Hi IH. rewrite andb_true_iff, IH. split.
    + intros [Hm Hx] name attrType. destruct (decide (i = name)) as [->|Hne].
      * rewrite lookup_insert_eq. intros [= <-].
        destruct (other !! name) as [otherType|]; [eauto | done].
      * rewrite lookup_insert_ne by done. apply Hm.
    + intros Hall. split.
      * intros name attrType Hname. apply Hall.
        rewrite lookup_insert_ne; [done|]. intros ->. congruence.
      * destruct (Hall i x) as (otherType & -> & Heq); [apply lookup_insert_eq | done].
Qed.

(** The [Equal] of the types is structural: it is true exactly on two types
    that are the same. *)
Theorem AttrType_Equal_eq (t candidate : AttrType) :
  AttrType_Equal t candidate = true ↔ t = candidate.
Proof.
  revert candidate. induction t as [| | | | |elemType IH|elemType IH|elemType IH|attrTypes IH]
    using AttrType_nested_ind; intros candidate;
    destruct candidate as [| | | | |other|other|other|other]; simpl;
    try (split; [done | congruence]); try by rewrite IH; split; congruence.
  rewrite andb_true_iff, Nat.eqb_eq, AttrType_Equal_fields. split.
  - intros [Hsize Hfields]. f_equal. apply map_subseteq_size_eq; [|lia].
    apply map_subseteq_spec. intros name attrType Hname.
    destruct (Hfields _ _ Hname) as (otherType & Hother & Heq).
    apply (IH _ _ Hname) in Heq. congruence.
  - intros [= <-]. split; [done|]. intros name attrType Hname.
    exists attrType. split; [done|]. by apply (IH _ _ Hname).
Qed.

(** * Equality of nested attribute objects *)

Section EqualFacts.

Variable Type_Equal : AttrType → AttrType → bool.
Variable Attribute_Equal : Attribute → Attribute → bool.

(** The loop answers true exactly when every entry it visits has an equal
    attribute under the same name in [other]. *)
Lemma Equal_range_true entries other :
  Equal_range Attribute_Equal entries other = true
  ↔ Forall (λ entry, ∃ otherAttribute,
                NestedAttributeObject_Attributes other !! entry.1 = Some otherAttribute
                ∧ Attribute_Equal entry.2 otherAttribute = true) entries.
Proof.
  induction entries as [|[name oAttribute] entries IH]; simpl.
  - split; [constructor | done].
  - rewrite Forall_cons; simpl.
    destruct (NestedAttributeObject_Attributes other !! name) as [otherAttribute|].
    + destruct (Attribute_Equal oAttribute otherAttribute) eqn:Heq; simpl.
      * rewrite IH. split; [eauto | tauto].
      * split; [done | intros [(? & [= <-] & ?) _]; congruence].
    + split; [done | intros [(? & [=] & _) _]].
Qed.

(** Two maps of the same size, one of whose key sets lies within the
    other's, have the same keys. *)
Lemma same_size_same_names {A} (m1 m2 : gmap string A) :
  size m1 = size m2 → dom m1 ⊆ dom m2 → dom m1 = dom m2.
Proof.
  intros Hsize Hsub. apply set_subseteq_size_eq; [done|].
  rewrite !size_dom. lia.
Qed.

(** For two maps of the same size: every entry of the one has an equal
    attribute under its name in the other exactly when the two maps have the
    same names and the attributes under every name are equal. *)
Lemma entries_Equal_same_names (o other : NestedAttributeObject) :
  size (NestedAttributeObject_Attributes o) = size (NestedAttributeObject_Attributes other) →
  Forall (λ entry, ∃ otherAttribute,
              NestedAttributeObject_Attributes other !! entry.1 = Some otherAttribute
              ∧ Attribute_Equal entry.2 otherAttribute = true)
         (map_to_list (NestedAttributeObject_Attributes o))
  ↔ dom (NestedAttributeObject_Attributes o) = dom (NestedAttributeObject_Attributes other)
    ∧ ∀ name oAttribute otherAttribute,
        NestedAttributeObject_Attributes o !! name = Some oAttribute →
        NestedAttributeObject_Attributes other !! name = Some otherAttribute →
        Attribute_Equal oAttribute otherAttribute = true.
Proof.
  intros Hsize. rewrite Forall_forall. split.
  - intros Hall.
    assert (dom (NestedAttributeObject_Attributes o)
            = dom (NestedAttributeObject_Attributes other)) as Hdom.
    { apply same_size_same_names; [done|]. intros name [oAttribute Ho]%elem_of_dom.
      destruct (Hall (name, oAttribute)) as (otherAttribute & Hother & _);
        [by apply elem_of_map_to_list|].
      apply elem_of_dom. eauto. }
    split; [done|]. intros name oAttribute otherAttribute Ho Hother.
    destruct (Hall (name, oAttribute)) as (otherAttribute' & Hother' & Heq);
      [by apply elem_of_map_to_list|].
    simpl in *. congruence.
  - intros [Hdom Hall] [name oAttribute] Ho%elem_of_map_to_list. simpl.
    assert (is_Some (NestedAttributeObject_Attributes other !! name)) as [otherAttribute Hother].
    { apply elem_of_dom. rewrite <-Hdom. apply elem_of_dom. eauto. }
    eauto.
Qed.

(** C5: whatever the order in which the [range] over [o.Attributes] visits
    its entries, [o.Equal(other)] is true if and only if the types of the
    two objects are [Equal], the two attribute maps have the same names, and
    under every name the attribute of [o] is [Equal] to that of [other]. *)
Theorem NestedAttributeObject_Equal_iff (entries : list (string * Attribute))
    (o other : NestedAttributeObject) :
  entries ≡ₚ map_to_list (NestedAttributeObject_Attributes o) →
  NestedAttributeObject_Equal_in Type_Equal Attribute_Equal entries o other = true
  ↔ Type_Equal (NestedAttributeObject_Type o) (NestedAttributeObject_Type other) = true
    ∧ dom (NestedAttributeObject_Attributes o) = dom (NestedAttributeObject_Attributes other)
    ∧ ∀ name oAttribute otherAttribute,
        NestedAttributeObject_Attributes o !! name = Some oAttribute →
        NestedAttributeObject_Attributes other !! name = Some otherAttribute →
        Attribute_Equal oAttribute otherAttribute = true.
Proof.
  intros Hperm. unfold NestedAttributeObject_Equal_in.
  destruct (Type_Equal _ _); simpl; [|split; [done | by intros [? _]]].
  destruct (Nat.eqb_spec (size (NestedAttributeObject_Attributes o))
                         (size (NestedAttributeObject_Attributes other))) as [Hsize|Hsize]; simpl.
  - rewrite Equal_range_true, Hperm, entries_Equal_same_names by done.
    split; [done | by intros [_ ?]].
  - split; [done|]. intros (_ & Hdom & _). destruct Hsize.
    by rewrite <-!size_dom, Hdom.
Qed.

(** [o.Equal(other)] with the entries visited in the order of the map. *)
Corollary NestedAttributeObject_Equal_true (o other : NestedAttributeObject) :
  NestedAttributeObject_Equal Type_Equal Attribute_Equal o other = true
  ↔ Type_Equal (NestedAttributeObject_Type o) (NestedAttributeObject_Type other) = true
    ∧ dom (NestedAttributeObject_Attributes o) = dom (NestedAttributeObject_Attributes other)
    ∧ ∀ name oAttribute otherAttribute,
        NestedAttributeObject_Attributes o !! name = Some oAttribute →
        NestedAttributeObject_Attributes other !! name = Some otherAttribute →
        Attribute_Equal oAttribute otherAttribute = true.
Proof.
  unfold NestedAttributeObject_Equal, NestedAttributeObject_Equal_in.
  destruct (Type_Equal _ _); simpl; [|split; [done | by intros [? _]]].
  destruct (Nat.eqb_spec (size (NestedAttributeObject_Attributes o))
                         (size (NestedAttributeObject_Attributes other))) as [Hsize|Hsize]; simpl.
  - rewrite Equal_range_true, entries_Equal_same_names by done.
    split; [done | by intros [_ ?]].
  - split; [done|]. intros (_ & Hdom & _). destruct Hsize.
    by rewrite <-!size_dom, Hdom.
Qed.

(** A name that only one of the two objects has makes them unequal. *)
Corollary NestedAttributeObject_Equal_extra_name (o other : NestedAttributeObject) (name : string) :
  (NestedAttributeObject_Attributes o !! name = None
   ∧ is_Some (NestedAttributeObject_Attributes other !! name))
  ∨ (is_Some (NestedAttributeObject_Attributes o !! name)
     ∧ NestedAttributeObject_Attributes other !! name = None) →
  NestedAttributeObject_Equal Type_Equal Attribute_Equal o other = false.
Proof.
  intros Hname. apply not_true_is_false.
  rewrite NestedAttributeObject_Equal_true. intros (_ & Hdom & _).
  destruct Hname as [[Ho Hother]|[Ho Hother]].
  - apply elem_of_dom in Hother. rewrite <-Hdom in Hother.
    apply elem_of_dom in Hother as [? ?]. congruence.
  - apply elem_of_dom in Ho. rewrite Hdom in Ho.
    apply elem_of_dom in Ho as [? ?]. congruence.
Qed.

End EqualFacts.

(** With the [Equal] of the types of the spec, the types are the same. *)
Corollary NestedAttributeObject_Equal_structural
    (Attribute_Equal : Attribute → Attribute → bool) (o other : NestedAttributeObject) :
  NestedAttributeObject_Equal AttrType_Equal Attribute_Equal o other = true
  ↔ NestedAttributeObject_Type o = NestedAttributeObject_Type other
    ∧ dom (NestedAttributeObject_Attributes o) = dom (NestedAttributeObject_Attributes other)
    ∧ ∀ name oAttribute otherAttribute,
        NestedAttributeObject_Attributes o !! name = Some oAttribute →
        NestedAttributeObject_Attributes other !! name = Some otherAttribute →
        Attribute_Equal oAttribute otherAttribute = true.
Proof. by rewrite NestedAttributeObject_Equal_true, AttrType_Equal_eq. Qed.

Lemma NestedAttributeObject_Equal_iff_witness :
  map_to_list (NestedAttributeObject_Attributes Sample.machine)
    ≡ₚ map_to_list (NestedAttributeObject_Attributes Sample.machine)
  ∧ (NestedAttributeObject_Equal_in AttrType_Equal Sample.Attribute_eqb_flags
       (map_to_list (NestedAttributeObject_Attributes Sample.machine))
       Sample.machine Sample.machine = true
     ↔ AttrType_Equal (NestedAttributeObject_Type Sample.machine)
                               (NestedAttributeObject_Type Sample.machine) = true
       ∧ dom (NestedAttributeObject_Attributes Sample.machine)
         = dom (NestedAttributeObject_Attributes Sample.machine)
       ∧ ∀ name oAttribute otherAttribute,
           NestedAttributeObject_Attributes Sample.machine !! name = Some oAttribute →
           NestedAttributeObject_Attributes Sample.machine !! name = Some otherAttribute →
           Sample.Attribute_eqb_flags oAttribute otherAttribute = true).
Proof.
  split; [reflexivity|].
  apply (NestedAttributeObject_Equal_iff AttrType_Equal Sample.Attribute_eqb_flags
           (map_to_list (NestedAttributeObject_Attributes Sample.machine))
           Sample.machine Sample.machine).
  reflexivity.
Defined.

Example NestedAttributeObject_Equal_same :
  NestedAttributeObject_Equal AttrType_Equal Sample.Attribute_eqb_flags
    Sample.machine Sample.machine = true.
Proof. vm_compute; reflexivity. Qed.

Example NestedAttributeObject_Equal_other_names :
  NestedAttributeObject_Equal AttrType_Equal Sample.Attribute_eqb_flags
    Sample.machine Sample.nic = false.
Proof. vm_compute; reflexivity. Qed.

(** * The sequence of diagnostics *)

Section AppendFacts.

Variable E : Equality.

Lemma HasError_app (diags new : diag_Diagnostics) :
  HasError (diags ++ new) = HasError diags || HasError new.
Proof. apply existsb_app. Qed.

Lemma Contains_app (diags more : diag_Diagnostics) (d : Diagnostic) :
  Contains E (diags ++ more) d = Contains E diags d || Contains E more d.
Proof. apply existsb_app. Qed.

Lemma Append_cons (diags : diag_Diagnostics) (d : Diagnostic) (new : diag_Diagnostics) :
  Append E diags (d :: new)
  = Append E (if Contains E diags d then diags else (diags ++ [d])%list) new.
Proof. reflexivity. Qed.

Lemma Append_one (diags : diag_Diagnostics) (d : Diagnostic) :
  Append E diags [d] = if Contains E diags d then diags else (diags ++ [d])%list.
Proof. reflexivity. Qed.

Lemma Append_app (diags new more : diag_Diagnostics) :
  Append E diags (new ++ more) = Append E (Append E diags new) more.
Proof. apply fold_left_app. Qed.

(** [Append] keeps what the sequence holds, in its place. *)
Lemma Append_prefix (diags new : diag_Diagnostics) :
  diags `prefix_of` Append E diags new.
Proof.
  revert diags. induction new as [|d new IH]; intros diags; [done|].
  rewrite Append_cons. destruct (Contains E diags d); [apply IH|].
  etrans; [|apply IH]. by apply prefix_app_r.
Qed.

(** Equal diagnostics have the same severity. *)
Lemma Diagnostic_Equal_severity (d other : Diagnostic) :
  Diagnostic_Equal E d other = true → DiagSeverity d = DiagSeverity other.
Proof.
  unfold Diagnostic_Equal. intros H.
  apply andb_true_iff in H as [H _]. apply andb_true_iff in H as [H _].
  apply andb_true_iff in H as [H _].
  by destruct (DiagSeverity d), (DiagSeverity other).
Qed.

(** A sequence that contains an error holds an error. *)
Lemma Contains_error (diags : diag_Diagnostics) (d : Diagnostic) :
  Contains E diags d = true → is_error d = true → HasError diags = true.
Proof.
  unfold Contains, HasError. intros [d' [Hin Hequal]]%existsb_exists Herror.
  apply existsb_exists. exists d'. split; [done|].
  unfold is_error in *. by rewrite (Diagnostic_Equal_severity _ _ Hequal).
Qed.

Lemma Contains_without_error (diags : diag_Diagnostics) (d : Diagnostic) :
  HasError diags = false → is_error d = true → Contains E diags d = false.
Proof.
  intros Hnone Herror. destruct (Contains E diags d) eqn:Hcontains; [|done].
  by rewrite (Contains_error _ _ Hcontains Herror) in Hnone.
Qed.

(** Whether the sequence holds an error after [Append]: it did, or one of the
    new diagnostics is an error. *)
Lemma HasError_Append (diags new : diag_Diagnostics) :
  HasError (Append E diags new) = HasError diags || HasError new.
Proof.
  revert diags. induction new as [|d new IH]; intros diags.
  { simpl. by rewrite orb_false_r. }
  rewrite Append_cons, IH. change (HasError (d :: new)) with (is_error d || HasError new).
  destruct (Contains E diags d) eqn:Hcontains.
  - destruct (is_error d) eqn:Herror; [|done].
    by rewrite (Contains_error _ _ Hcontains Herror).
  - rewrite HasError_app. simpl. rewrite orb_false_r. by rewrite orb_assoc.
Qed.

(** New diagnostics of which the sequence contains none and of which none
    equals an earlier one are all added. *)
Lemma Append_fresh (diags new : diag_Diagnostics) :
  (∀ d, d ∈ new → Contains E diags d = false) →
  (∀ i j di dj, (i < j)%nat → new !! i = Some di → new !! j = Some dj →
                Diagnostic_Equal E di dj = false) →
  Append E diags new = (diags ++ new)%list.
Proof.
  revert diags. induction new as [|d new IH]; intros diags Hnew Hdistinct.
  { simpl. by rewrite app_nil_r. }
  rewrite Append_cons, (Hnew d) by apply list_elem_of_here.
  rewrite IH; [by rewrite <-app_assoc| |].
  - intros d' Hin. rewrite Contains_app, (Hnew d') by by apply list_elem_of_further.
    simpl. rewrite orb_false_r.
    apply list_elem_of_lookup in Hin as [j Hj].
    by apply (Hdistinct 0%nat (S j)); [lia| |].
  - intros i j di dj Hlt Hi Hj. apply (Hdistinct (S i) (S j)); [lia|done..].
Qed.

(** Without the steps that two paths begin with, equal paths are equal. *)
Lemma Path_Equal_app (p a b : Path) :
  Path_Equal E (p ++ a) (p ++ b) = true → Path_Equal E a b = true.
Proof.
  induction p as [|s p IH]; [done|]. simpl.
  intros [_ H]%andb_true_iff. by apply IH.
Qed.

End AppendFacts.

(** * Attribute validation *)

(** Unfolds what does not look at the deprecation message. *)
Ltac unfold_deprecation :=
  unfold without_deprecation, tfsdk_GetAttributes, tfsdk_GetNestingMode,
    validators_then_nested, AttributeValidateNestedAttributes,
    AttributeValidateNestedAttributes_body, tfsdk_GetNestingMode; simpl.

(** Unfolds the nested validation down to the switch on the nesting mode. *)
Ltac unfold_nested :=
  unfold AttributeValidateNestedAttributes, AttributeValidateNestedAttributes_body,
    tfsdk_GetNestingMode.

Section AttributeValidation.

Variable E : Equality.

(** [AttributeValidate], one call unfolded. *)
Lemma AttributeValidate_unfold (a : Attribute) (req : ValidateAttributeRequest)
    (resp : ValidateAttributeResponse) :
  AttributeValidate E a req resp =
  if AsTfsdkAttribute a && AttrType_is_nil (GetType a) then
    resp_AddAttributeError E resp (AttributePath req)
      summary_InvalidAttributeDefinition detail_MissingTypeOrAttributes
  else if AsTfsdkAttribute a && (0 <? size (tfsdk_GetAttributes a))%nat
          && NestingMode_eqb (tfsdk_GetNestingMode a) NestingModeUnknown then
    resp_AddAttributeError E resp (AttributePath req)
      summary_InvalidAttributeDefinition detail_BothTypeAndAttributes
  else if negb (IsRequired a) && negb (IsOptional a) && negb (IsComputed a) then
    resp_AddAttributeError E resp (AttributePath req)
      summary_InvalidAttributeDefinition detail_MissingRequiredOptionalComputed
  else
    let '(attributeConfig, diags) := ValueAtPath (RequestConfig req) (AttributePath req) in
    let resp := resp_Append E (record_call (CallValueAtPath (AttributePath req)) resp) diags in
    if HasError diags then resp
    else
      let resp :=
        if IsComputed a && negb (IsOptional a) && negb (IsNull attributeConfig) then
          resp_AddAttributeError E resp (AttributePath req)
            summary_ReadOnlyAttribute detail_ReadOnlyAttribute
        else resp in
      let resp :=
        if IsRequired a && IsNull attributeConfig then
          resp_AddAttributeError E resp (AttributePath req)
            summary_MissingRequiredAttribute (detail_MissingRequiredAttribute (AttributePath req))
        else resp in
      let resp := validators_then_nested E a (with_AttributeConfig req attributeConfig) resp in
      if negb (String.eqb (GetDeprecationMessage a) "")
         && negb (IsNull attributeConfig) && negb (IsUnknown attributeConfig) then
        resp_AddAttributeWarning E resp (AttributePath req)
          summary_AttributeDeprecated [Text (GetDeprecationMessage a)]
      else resp.
Proof. destruct a; reflexivity. Qed.

(** C6, amended: for an attribute that is neither required nor optional nor
    computed, [AttributeValidate] hands one error diagnostic "Invalid
    Attribute Definition" at the path of the attribute to the sequence of
    diagnostics and returns: the value is not fetched, no validator runs and
    no nested attribute is validated (no call is made).  The diagnostic is
    added at the end unless the sequence already contains an equal one, in
    which case the sequence stays as it is; a sequence that holds no error
    contains none, so there the diagnostic is always added. *)
Theorem AttributeValidate_undefined (a : Attribute) (req : ValidateAttributeRequest)
    (resp : ValidateAttributeResponse) :
  IsRequired a = false → IsOptional a = false → IsComputed a = false →
  ∃ detail,
    let invalid :=
      MkDiagnostic SeverityError (Some (AttributePath req))
                   "Invalid Attribute Definition" detail in
    AttributeValidate E a req resp
    = MkResponse
        (if Contains E (Diagnostics resp) invalid then Diagnostics resp
         else (Diagnostics resp ++ [invalid])%list)
        (Calls resp)
    ∧ (HasError (Diagnostics resp) = false → Contains E (Diagnostics resp) invalid = false).
Proof.
  intros Hrequired Hoptional Hcomputed.
  rewrite AttributeValidate_unfold, Hrequired, Hoptional, Hcomputed. simpl.
  destruct (_ && _); [|destruct (_ && _)];
    (eexists; split; [reflexivity|]; intros Hnone; by apply Contains_without_error).
Qed.

(** The result of such a validation does not depend on the configuration
    or on the value that the request carries. *)
Corollary AttributeValidate_undefined_ignores_config (a : Attribute)
    (req req' : ValidateAttributeRequest) (resp : ValidateAttributeResponse) :
  IsRequired a = false → IsOptional a = false → IsComputed a = false →
  AttributePath req = AttributePath req' →
  AttributeValidate E a req resp = AttributeValidate E a req' resp.
Proof.
  intros Hrequired Hoptional Hcomputed Hpath.
  rewrite !AttributeValidate_unfold, Hrequired, Hoptional, Hcomputed, Hpath. simpl.
  destruct (_ && _); [done|]. by destruct (_ && _).
Qed.

(** C7: for a nested attribute of mode single whose value converts to an
    object that is null or unknown, the nested validation validates no
    nested attribute and adds no diagnostic of its own: the response gains
    the diagnostics of the conversion and nothing else, and the only call
    made is the conversion. *)
Theorem Single_null_or_unknown_no_descent (a : Attribute) (req : ValidateAttributeRequest)
    (resp : ValidateAttributeResponse) (nestedObject : NestedAttributeObject)
    (value : Value) (o : ObjectValue) (diags : list Message) :
  AsNestedAttribute a = Some (NestingModeSingle, nestedObject) →
  AttributeConfig req = Some value →
  AsObjectValuable value = Some (o, diags) →
  ObjectIsNull o || ObjectIsUnknown o = true →
  AttributeValidateNestedAttributes E a req resp
  = MkResponse (Append E (Diagnostics resp) (of_message <$> diags))
               (Calls resp ++ [CallToObjectValue (AttributePath req)]).
Proof.
  intros Hnested Hconfig Hobject Hnull.
  unfold_nested.
  rewrite Hnested, Hconfig. simpl. rewrite Hobject, Hnull, andb_false_r.
  by destruct (HasError _).
Qed.

(** C8, amended: for a required attribute whose definition passes the checks
    and whose value is fetched without error and is null, [AttributeValidate]
    hands, after the diagnostics of the fetch, one error diagnostic "Missing
    Configuration for Required Attribute" at the path of the attribute to
    the sequence of diagnostics, and with the response so extended goes on
    to the validators and the nested attributes; for an attribute that has
    neither, that is the whole result.  The diagnostic is added at the end
    unless the sequence already contains an equal one, in which case none is
    added; a sequence that holds no error contains none, so there exactly
    one is added. *)
Theorem AttributeValidate_required_null (a : Attribute) (req : ValidateAttributeRequest)
    (resp : ValidateAttributeResponse) (attributeConfig : Value) (diags : diag_Diagnostics) :
  IsRequired a = true →
  definition_checks_pass a = true →
  ValueAtPath (RequestConfig req) (AttributePath req) = (attributeConfig, diags) →
  HasError diags = false →
  IsNull attributeConfig = true →
  let missing :=
    MkDiagnostic SeverityError (Some (AttributePath req))
                 "Missing Configuration for Required Attribute"
                 (detail_MissingRequiredAttribute (AttributePath req)) in
  let fetched := Append E (Diagnostics resp) diags in
  let checked :=
    MkResponse (if Contains E fetched missing then fetched else (fetched ++ [missing])%list)
               (Calls resp ++ [CallValueAtPath (AttributePath req)]) in
  AttributeValidate E a req resp
  = validators_then_nested E a (with_AttributeConfig req attributeConfig) checked
  ∧ (AsAttributeWithValidators a = None → AsNestedAttribute a = None →
     AttributeValidate E a req resp = checked)
  ∧ (HasError (Diagnostics resp) = false → Contains E fetched missing = false).
Proof.
  intros Hrequired Hchecks Hvalue Hdiags Hnull missing fetched checked.
  assert (AttributeValidate E a req resp
          = validators_then_nested E a (with_AttributeConfig req attributeConfig) checked) as Heq.
  { rewrite AttributeValidate_unfold.
    unfold definition_checks_pass in Hchecks.
    apply andb_true_iff in Hchecks as [[H1%negb_true_iff H2%negb_true_iff]%andb_true_iff
                                       H3%negb_true_iff].
    rewrite H1, H2, H3, Hvalue, Hdiags, Hrequired, Hnull.
    destruct (IsComputed a && negb (IsOptional a)); simpl; by rewrite andb_false_r. }
  split; [done|]. split.
  - intros Hvalidators Hnested. rewrite Heq.
    unfold validators_then_nested, AttributeValidateNestedAttributes,
      AttributeValidateNestedAttributes_body.
    by rewrite Hvalidators, Hnested.
  - intros Hnone. apply Contains_without_error; [|done].
    unfold fetched. by rewrite HasError_Append, Hnone, Hdiags.
Qed.

(** C10, amended: the deprecation message of an attribute changes the result
    of [AttributeValidate] in one way only: when the value of the attribute
    is fetched and is neither null nor unknown and the message is not empty,
    the warning "Attribute Deprecated" with that message at the path of the
    attribute is handed to the sequence of diagnostics after everything
    else, and is added at the end unless the sequence already contains an
    equal warning; otherwise, and so for a value that is null or unknown,
    nothing is added. *)
Theorem AttributeValidate_deprecation (a : Attribute) (req : ValidateAttributeRequest)
    (resp : ValidateAttributeResponse) :
  AttributeValidate E a req resp
  = let validated := AttributeValidate E (without_deprecation a) req resp in
    let warning :=
      MkDiagnostic SeverityWarning (Some (AttributePath req))
                   "Attribute Deprecated" [Text (GetDeprecationMessage a)] in
    if deprecation_warning_due a req then
      MkResponse
        (if Contains E (Diagnostics validated) warning then Diagnostics validated
         else (Diagnostics validated ++ [warning])%list)
        (Calls validated)
    else validated.
Proof.
  rewrite !AttributeValidate_unfold. unfold deprecation_warning_due, definition_checks_pass.
  destruct a as [tfsdk t required optional computed message validators nested].
  unfold_deprecation.
  destruct (ValueAtPath (RequestConfig req) (AttributePath req)) as [attributeConfig diags].
  destruct (tfsdk && AttrType_is_nil t); simpl; [done|].
  destruct (tfsdk && _ && _); simpl; [done|].
  destruct (negb required && negb optional && negb computed); simpl; [done|].
  destruct (HasError diags); simpl; [done|].
  by destruct (message =? "")%string, (IsNull attributeConfig), (IsUnknown attributeConfig).
Qed.

(** A deprecated attribute whose value is null or unknown gets no
    deprecation warning. *)
Corollary AttributeValidate_deprecation_null_or_unknown (a : Attribute)
    (req : ValidateAttributeRequest) (resp : ValidateAttributeResponse) :
  IsNull (ValueAtPath (RequestConfig req) (AttributePath req)).1
  || IsUnknown (ValueAtPath (RequestConfig req) (AttributePath req)).1 = true →
  AttributeValidate E a req resp = AttributeValidate E (without_deprecation a) req resp.
Proof.
  rewrite !AttributeValidate_unfold.
  destruct a as [tfsdk t required optional computed message validators nested].
  unfold_deprecation.
  destruct (ValueAtPath (RequestConfig req) (AttributePath req)) as [attributeConfig diags].
  simpl. intros Hnull.
  destruct (tfsdk && AttrType_is_nil t); simpl; [done|].
  destruct (tfsdk && _ && _); simpl; [done|].
  destruct (negb required && negb optional && negb computed); simpl; [done|].
  destruct (HasError diags); simpl; [done|].
  by destruct (message =? "")%string, (IsNull attributeConfig), (IsUnknown attributeConfig).
Qed.

(** ** Errors of earlier siblings and the descent into nested attributes *)

(** After the conversion of a list value the nested validation asks whether
    the response holds an error, not whether the conversion returned one:
    it validates no nested attribute when the conversion returned an error,
    and also when the response held one from before, whatever the conversion
    returned.  The diagnostics of the conversion are handed to the response
    in both cases. *)
Lemma list_descent_skipped_after_error (a : Attribute) (req : ValidateAttributeRequest)
    (resp : ValidateAttributeResponse) (nestedObject : NestedAttributeObject)
    (value : Value) (l : list Value) (diags : list Message) :
  AsNestedAttribute a = Some (NestingModeList, nestedObject) →
  AttributeConfig req = Some value →
  AsListValuable value = Some (l, diags) →
  HasError (Diagnostics resp) || HasError (of_message <$> diags) = true →
  AttributeValidateNestedAttributes E a req resp
  = MkResponse (Append E (Diagnostics resp) (of_message <$> diags))
               (Calls resp ++ [CallToListValue (AttributePath req)]).
Proof.
  intros Hnested Hconfig Hlist Herror.
  unfold_nested.
  rewrite Hnested, Hconfig. simpl. rewrite Hlist, andb_false_r. simpl.
  by rewrite HasError_Append, Herror.
Qed.

(** The same for a set value. *)
Lemma set_descent_skipped_after_error (a : Attribute) (req : ValidateAttributeRequest)
    (resp : ValidateAttributeResponse) (nestedObject : NestedAttributeObject)
    (value : Value) (s : list Value) (diags : list Message) :
  AsNestedAttribute a = Some (NestingModeSet, nestedObject) →
  AttributeConfig req = Some value →
  AsSetValuable value = Some (s, diags) →
  HasError (Diagnostics resp) || HasError (of_message <$> diags) = true →
  AttributeValidateNestedAttributes E a req resp
  = MkResponse (Append E (Diagnostics resp) (of_message <$> diags))
               (Calls resp ++ [CallToSetValue (AttributePath req)]).
Proof.
  intros Hnested Hconfig Hset Herror.
  unfold_nested.
  rewrite Hnested, Hconfig. simpl. rewrite Hset, andb_false_r. simpl.
  by rewrite HasError_Append, Herror.
Qed.

End AttributeValidation.

Lemma AttributeValidate_undefined_witness :
  IsRequired Sample.undefined_string = false
  ∧ IsOptional Sample.undefined_string = false
  ∧ IsComputed Sample.undefined_string = false
  ∧ ∃ detail,
      let invalid :=
        MkDiagnostic SeverityError (Some (AttributePath (Sample.request Sample.name_path)))
                     "Invalid Attribute Definition" detail in
      AttributeValidate Sample.equal Sample.undefined_string (Sample.request Sample.name_path)
        Sample.empty_response
      = MkResponse
          (if Contains Sample.equal (Diagnostics Sample.empty_response) invalid
           then Diagnostics Sample.empty_response
           else (Diagnostics Sample.empty_response ++ [invalid])%list)
          (Calls Sample.empty_response)
      ∧ (HasError (Diagnostics Sample.empty_response) = false →
         Contains Sample.equal (Diagnostics Sample.empty_response) invalid = false).
Proof.
  repeat (split; [reflexivity|]).
  apply (AttributeValidate_undefined Sample.equal Sample.undefined_string
           (Sample.request Sample.name_path) Sample.empty_response); reflexivity.
Defined.

(** C6 as stated fails on a response that already holds the error:
    the attribute [Sample.undefined_string] is neither required nor optional
    nor computed, and validating it at the path [name] on the response that
    holds the error "Invalid Attribute Definition" of that path returns the
    response as it was: no diagnostic is appended. *)
Lemma AttributeValidate_undefined_counterexample :
  let req := Sample.request Sample.name_path in
  let held :=
    MkResponse [MkDiagnostic SeverityError (Some Sample.name_path)
                             "Invalid Attribute Definition"
                             detail_MissingRequiredOptionalComputed] [] in
  IsRequired Sample.undefined_string = false
  ∧ IsOptional Sample.undefined_string = false
  ∧ IsComputed Sample.undefined_string = false
  ∧ AttributeValidate Sample.equal Sample.undefined_string req held = held
  ∧ ¬ ∃ d, Diagnostics (AttributeValidate Sample.equal Sample.undefined_string req held)
           = (Diagnostics held ++ [d])%list.
Proof.
  repeat (split; [vm_compute; reflexivity|]).
  intros [d H]. apply (f_equal length) in H. vm_compute in H. discriminate.
Qed.

Lemma Single_null_or_unknown_no_descent_witness :
  AsNestedAttribute Sample.vm = Some (NestingModeSingle, Sample.machine)
  ∧ AttributeConfig (with_AttributeConfig (Sample.request Sample.vm_path) Sample.ObjectNull)
    = Some Sample.ObjectNull
  ∧ AsObjectValuable Sample.ObjectNull = Some (MkObjectValue true false, [])
  ∧ ObjectIsNull (MkObjectValue true false) || ObjectIsUnknown (MkObjectValue true false) = true
  ∧ AttributeValidateNestedAttributes Sample.equal Sample.vm
      (with_AttributeConfig (Sample.request Sample.vm_path) Sample.ObjectNull) Sample.empty_response
    = MkResponse [] [CallToObjectValue Sample.vm_path].
Proof.
  repeat (split; [reflexivity|]).
  apply (Single_null_or_unknown_no_descent Sample.equal Sample.vm
           (with_AttributeConfig (Sample.request Sample.vm_path) Sample.ObjectNull)
           Sample.empty_response Sample.machine Sample.ObjectNull (MkObjectValue true false) []);
    reflexivity.
Defined.

Lemma AttributeValidate_required_null_witness :
  IsRequired Sample.required_string = true
  ∧ definition_checks_pass Sample.required_string = true
  ∧ ValueAtPath (RequestConfig (Sample.request Sample.name_path))
                (AttributePath (Sample.request Sample.name_path)) = (Sample.StringNull, [])
  ∧ HasError [] = false
  ∧ IsNull Sample.StringNull = true
  ∧ AttributeValidate Sample.equal Sample.required_string (Sample.request Sample.name_path)
      Sample.empty_response
    = MkResponse [Sample.missing Sample.name_path] [CallValueAtPath Sample.name_path].
Proof.
  repeat (split; [reflexivity|]).
  apply (AttributeValidate_required_null Sample.equal Sample.required_string
           (Sample.request Sample.name_path) Sample.empty_response Sample.StringNull []);
    reflexivity.
Defined.

(** C8 as stated fails on a response that already holds the error, as
    the response does when the second of two equal elements of a set is
    validated: the required attribute [Sample.required_string] has a null
    value at the path [name], and validating it on the response that holds
    the error "Missing Configuration for Required Attribute" of that path
    fetches the value and appends no diagnostic. *)
Lemma AttributeValidate_required_null_counterexample :
  let req := Sample.request Sample.name_path in
  let held := MkResponse [Sample.missing Sample.name_path] [] in
  IsRequired Sample.required_string = true
  ∧ definition_checks_pass Sample.required_string = true
  ∧ ValueAtPath (RequestConfig req) (AttributePath req) = (Sample.StringNull, [])
  ∧ IsNull Sample.StringNull = true
  ∧ AttributeValidate Sample.equal Sample.required_string req held
    = MkResponse [Sample.missing Sample.name_path] [CallValueAtPath Sample.name_path]
  ∧ ¬ ∃ d, Diagnostics (AttributeValidate Sample.equal Sample.required_string req held)
           = (Diagnostics held ++ [d])%list.
Proof.
  repeat (split; [vm_compute; reflexivity|]).
  intros [d H]. apply (f_equal length) in H. vm_compute in H. discriminate.
Qed.

Example AttributeValidate_deprecated_known :
  Diagnostics (AttributeValidate Sample.equal Sample.deprecated_string
                 (Sample.request [PathStepAttributeName "old"]) Sample.empty_response)
  = [MkDiagnostic SeverityWarning (Some [PathStepAttributeName "old"])
                  "Attribute Deprecated" [Text "use other"]].
Proof. vm_compute; reflexivity. Qed.

Example AttributeValidate_deprecated_null :
  Diagnostics (AttributeValidate Sample.equal Sample.deprecated_string
                 (Sample.request Sample.name_path) Sample.empty_response)
  = [].
Proof. vm_compute; reflexivity. Qed.

(** C10 as stated fails on a response that already holds the warning:
    the attribute [Sample.deprecated_string] has a deprecation message and a
    known value at the path [old], and validating it on the response that
    holds the warning "Attribute Deprecated" of that path with that message
    fetches the value and appends no diagnostic. *)
Lemma AttributeValidate_deprecation_counterexample :
  let req := Sample.request [PathStepAttributeName "old"] in
  let held :=
    MkResponse [MkDiagnostic SeverityWarning (Some [PathStepAttributeName "old"])
                             "Attribute Deprecated" [Text "use other"]] [] in
  GetDeprecationMessage Sample.deprecated_string = "use other"
  ∧ IsNull (ValueAtPath (RequestConfig req) (AttributePath req)).1 = false
  ∧ IsUnknown (ValueAtPath (RequestConfig req) (AttributePath req)).1 = false
  ∧ deprecation_warning_due Sample.deprecated_string req = true
  ∧ AttributeValidate Sample.equal Sample.deprecated_string req held
    = MkResponse (Diagnostics held) [CallValueAtPath (AttributePath req)]
  ∧ ¬ ∃ d, Diagnostics (AttributeValidate Sample.equal Sample.deprecated_string req held)
           = (Diagnostics held ++ [d])%list.
Proof.
  repeat (split; [vm_compute; reflexivity|]).
  intros [d H]. apply (f_equal length) in H. vm_compute in H. discriminate.
Qed.

(** C1: on the sample configuration the list of network interfaces converts
    without any diagnostic.  Started on an empty response, the nested
    validation descends into the one interface and reports its missing
    address.  Started on the response that the validation of the sibling
    [name] left, which holds that sibling's error, it does not descend and
    the missing address goes unreported; so does the validation of the whole
    machine, which visits [name] before [nics]. *)
Theorem nested_descent_depends_on_sibling_errors :
  let req := with_AttributeConfig (Sample.request Sample.nics_path)
                                  (Sample.ListKnown [Sample.ObjectKnown]) in
  AttributeConfig req ≫= AsListValuable = Some ([Sample.ObjectKnown], [])
  ∧ AttributeValidateNestedAttributes Sample.equal Sample.nics req Sample.empty_response
    = MkResponse [Sample.missing Sample.mac_path]
                 [CallToListValue Sample.nics_path;
                  CallAttributeValidate Sample.mac_path;
                  CallValueAtPath Sample.mac_path]
  ∧ Sample.after_name
    = MkResponse [Sample.missing Sample.name_path] [CallValueAtPath Sample.name_path]
  ∧ AttributeValidateNestedAttributes Sample.equal Sample.nics req Sample.after_name
    = MkResponse [Sample.missing Sample.name_path]
                 [CallValueAtPath Sample.name_path; CallToListValue Sample.nics_path]
  ∧ AttributeValidate Sample.equal Sample.vm (Sample.request Sample.vm_path) Sample.empty_response
    = MkResponse [Sample.missing Sample.name_path]
                 [CallValueAtPath Sample.vm_path;
                  CallToObjectValue Sample.vm_path;
                  CallAttributeValidate Sample.name_path;
                  CallValueAtPath Sample.name_path;
                  CallAttributeValidate Sample.nics_path;
                  CallValueAtPath Sample.nics_path;
                  CallToListValue Sample.nics_path].
Proof. repeat split; vm_compute; reflexivity. Qed.

(** * Further properties of path resolution *)

Section PathResolutionMore.

Variable implStep : Node → AttributePathStep → result Node.

(** X1: a step applies to a schema exactly when it is an attribute name that
    is a key of the attributes, which yields that attribute, or a key of the
    blocks only, which yields that block. *)
Theorem Schema_step_result (s : Schema) (step : AttributePathStep) (n : Node) :
  Schema_ApplyTerraform5AttributePathStep s step = Ok n
  ↔ ∃ name, step = AttributeName name
            ∧ ((∃ attr, Schema_Attributes s !! name = Some attr ∧ n = NAttribute attr)
               ∨ (Schema_Attributes s !! name = None
                  ∧ ∃ block, Schema_Blocks s !! name = Some block ∧ n = NBlock block)).
Proof.
  unfold Schema_ApplyTerraform5AttributePathStep. split.
  - destruct step as [name| | |]; try done. intros Hstep. exists name. split; [done|].
    destruct (Schema_Attributes s !! name) as [attr|].
    + injection Hstep as <-. left. eauto.
    + destruct (Schema_Blocks s !! name) as [block|]; [|done].
      injection Hstep as <-. right. eauto.
  - intros (name & -> & [(attr & -> & ->)|(-> & block & -> & ->)]); done.
Qed.

(** X2: on the empty path [Schema.AttributeAtTerraformPath] fails, with the
    unexpected-type error for the schema itself, while
    [Schema.TypeAtTerraformPath] returns the type of the schema. *)
Theorem empty_path_resolution (s : Schema) :
  Schema_AttributeAtTerraformPath implStep s [] = Err (ErrAttributeAtUnexpectedType (NSchema s))
  ∧ Schema_TypeAtTerraformPath implStep s [] = Ok (Schema_Type s).
Proof. done. Qed.

(** X3: on a path of one attribute name, [Schema.AttributeAtTerraformPath]
    returns the attribute of that name; for a name of a block only it
    returns [ErrPathIsBlock]; for a name of neither it reports that this
    step remains and that the name was not found. *)
Theorem AttributeAtTerraformPath_name (s : Schema) (name : string) :
  Schema_AttributeAtTerraformPath implStep s [AttributeName name]
  = match Schema_Attributes s !! name with
    | Some attr => Ok attr
    | None =>
        match Schema_Blocks s !! name with
        | Some _ => Err ErrPathIsBlock
        | None => Err (ErrStillRemains [AttributeName name] (ErrNotFound "schema" name))
        end
    end.
Proof.
  unfold Schema_AttributeAtTerraformPath. simpl.
  destruct (Schema_Attributes s !! name); [done|]. by destruct (Schema_Blocks s !! name).
Qed.

(** X4: for a name that is not both an attribute and a block, the type that
    [Schema.Type] holds under the name is the type that
    [Schema.TypeAtTerraformPath] returns for the path of that name. *)
Theorem Schema_Type_agrees_with_TypeAtTerraformPath (s : Schema) (name : string) :
  Schema_Attributes s !! name = None ∨ Schema_Blocks s !! name = None →
  ∃ attrTypes, Schema_Type s = ObjectType attrTypes
               ∧ ∀ t, attrTypes !! name = Some t
                      ↔ Schema_TypeAtTerraformPath implStep s [AttributeName name] = Ok t.
Proof.
  intros Hone. destruct (Schema_Type_lookup s) as (attrTypes & Htype & Hlookup).
  exists attrTypes. split; [done|]. intros t. rewrite Hlookup.
  unfold Schema_TypeAtTerraformPath. simpl.
  destruct (Schema_Attributes s !! name) as [attr|] eqn:Hattr,
           (Schema_Blocks s !! name) as [block|] eqn:Hblock; simpl.
  - by destruct Hone.
  - split; congruence.
  - split; congruence.
  - split; congruence.
Qed.

(** X5: the names of the object type that [Schema.Type] returns are the
    names of the attributes together with the names of the blocks. *)
Theorem Schema_Type_names (s : Schema) :
  ∃ attrTypes, Schema_Type s = ObjectType attrTypes
               ∧ dom attrTypes = dom (Schema_Attributes s) ∪ dom (Schema_Blocks s).
Proof.
  destruct (Schema_Type_lookup s) as (attrTypes & Htype & Hlookup).
  exists attrTypes. split; [done|]. apply set_eq. intros name.
  rewrite elem_of_union, !elem_of_dom, Hlookup.
  destruct (Schema_Attributes s !! name), (Schema_Blocks s !! name); simpl;
    rewrite !is_Some_alt; tauto.
Qed.

(** X6: wherever [Schema.AttributeAtTerraformPath] returns an attribute,
    [ErrPathInsideAtomicAttribute] or [ErrPathIsBlock],
    [Schema.TypeAtTerraformPath] returns a type. *)
Theorem TypeAtTerraformPath_more_permissive (s : Schema) (path : tftypes_AttributePath) :
  (∃ a, Schema_AttributeAtTerraformPath implStep s path = Ok a)
  ∨ Schema_AttributeAtTerraformPath implStep s path = Err ErrPathInsideAtomicAttribute
  ∨ Schema_AttributeAtTerraformPath implStep s path = Err ErrPathIsBlock →
  ∃ t, Schema_TypeAtTerraformPath implStep s path = Ok t.
Proof.
  unfold Schema_AttributeAtTerraformPath, Schema_TypeAtTerraformPath.
  destruct (WalkAttributePath implStep (NSchema s) path) as [[res remaining] [cause|]].
  - intros [[a [=]]|[[=]|[=]]].
  - destruct res; eauto; intros [[a [=]]|[[=]|[=]]].
Qed.

(** X7: the two resolutions fail on the same paths with the same steps
    remaining and the same cause, when a step of the path does not apply. *)
Theorem walk_errors_coincide (s : Schema) (path remaining : tftypes_AttributePath) (cause : error) :
  Schema_AttributeAtTerraformPath implStep s path = Err (ErrStillRemains remaining cause)
  ↔ Schema_TypeAtTerraformPath implStep s path = Err (ErrStillRemains remaining cause).
Proof.
  unfold Schema_AttributeAtTerraformPath, Schema_TypeAtTerraformPath.
  destruct (WalkAttributePath implStep (NSchema s) path) as [[res rest] [e|]].
  - split; intros [= -> ->]; done.
  - destruct res; split; intros [=].
Qed.

(** A walk that fails has consumed a prefix of the path, which leads to a
    node at which the first remaining step does not apply. *)
Lemma WalkAttributePath_failure (n res : Node) (path remaining : tftypes_AttributePath) (cause : error) :
  WalkAttributePath implStep n path = (res, remaining, Some cause) →
  ∃ consumed step rest,
    path = (consumed ++ step :: rest)%list ∧ remaining = step :: rest
    ∧ WalkAttributePath implStep n consumed = (res, [], None)
    ∧ ApplyTerraform5AttributePathStep implStep res step = Err cause.
Proof.
  revert n. induction path as [|step rest IH]; intros n; simpl; [done|].
  destruct (ApplyTerraform5AttributePathStep implStep n step) as [next|err] eqn:Hstep.
  - intros (consumed & step' & rest' & -> & -> & Hwalk & Hfail)%IH.
    exists (step :: consumed), step', rest'. simpl. by rewrite Hstep.
  - intros [= <- <- <-]. by exists [], step, rest.
Qed.

(** X8: when [Schema.AttributeAtTerraformPath] reports that steps remain,
    they are a suffix of the path, not empty; the steps before them lead to
    a node, and the cause reported is the error of that node for the first
    remaining step. *)
Theorem remaining_steps_are_suffix (s : Schema) (path remaining : tftypes_AttributePath)
    (cause : error) :
  Schema_AttributeAtTerraformPath implStep s path = Err (ErrStillRemains remaining cause) →
  ∃ consumed step rest n,
    path = (consumed ++ step :: rest)%list ∧ remaining = step :: rest
    ∧ WalkAttributePath implStep (NSchema s) consumed = (n, [], None)
    ∧ ApplyTerraform5AttributePathStep implStep n step = Err cause.
Proof.
  unfold Schema_AttributeAtTerraformPath.
  destruct (WalkAttributePath implStep (NSchema s) path) as [[res rest] [e|]] eqn:Hwalk.
  - intros [= <- <-].
    destruct (WalkAttributePath_failure _ _ _ _ _ Hwalk) as (consumed & step & rest' & ?).
    exists consumed, step, rest', res. naive_solver.
  - destruct res; intros [=].
Qed.

End PathResolutionMore.

Lemma Schema_Type_agrees_with_TypeAtTerraformPath_witness :
  (Schema_Attributes Sample.schema !! "timeouts" = None
   ∨ Schema_Blocks Sample.schema !! "timeouts" = None)
  ∧ ∃ attrTypes, Schema_Type Sample.schema = ObjectType attrTypes
      ∧ ∀ t, attrTypes !! "timeouts" = Some t
             ↔ Schema_TypeAtTerraformPath model_step Sample.schema [AttributeName "timeouts"] = Ok t.
Proof.
  split; [left; vm_compute; reflexivity|].
  apply (Schema_Type_agrees_with_TypeAtTerraformPath model_step Sample.schema "timeouts").
  left. vm_compute; reflexivity.
Defined.

Lemma TypeAtTerraformPath_more_permissive_witness :
  Schema_AttributeAtTerraformPath model_step Sample.schema [AttributeName "timeouts"]
  = Err ErrPathIsBlock
  ∧ ∃ t, Schema_TypeAtTerraformPath model_step Sample.schema [AttributeName "timeouts"] = Ok t.
Proof.
  split; [vm_compute; reflexivity|].
  apply (TypeAtTerraformPath_more_permissive model_step Sample.schema [AttributeName "timeouts"]).
  right. right. vm_compute; reflexivity.
Defined.

Lemma remaining_steps_are_suffix_witness :
  Schema_AttributeAtTerraformPath model_step Sample.schema
    [AttributeName "tags"; ElementKeyInt 0; AttributeName "x"; ElementKeyInt 1]
  = Err (ErrStillRemains [AttributeName "x"; ElementKeyInt 1]
                         (ErrCannotApplyStep "type" (AttributeName "x")))
  ∧ ∃ consumed step rest n,
      [AttributeName "tags"; ElementKeyInt 0; AttributeName "x"; ElementKeyInt 1]
      = (consumed ++ step :: rest)%list
      ∧ [AttributeName "x"; ElementKeyInt 1] = step :: rest
      ∧ WalkAttributePath model_step (NSchema Sample.schema) consumed = (n, [], None)
      ∧ ApplyTerraform5AttributePathStep model_step n step
        = Err (ErrCannotApplyStep "type" (AttributeName "x")).
Proof.
  split; [vm_compute; reflexivity|].
  apply (remaining_steps_are_suffix model_step Sample.schema
           [AttributeName "tags"; ElementKeyInt 0; AttributeName "x"; ElementKeyInt 1]).
  vm_compute; reflexivity.
Defined.

(** X9: [Schema.GetAttributes] and [Schema.GetBlocks] return maps with
    exactly the entries of the attributes and of the blocks of the
    schema. *)
Theorem Schema_GetAttributes_GetBlocks (s : Schema) :
  Schema_GetAttributes s = Schema_Attributes s ∧ Schema_GetBlocks s = Schema_Blocks s.
Proof.
  unfold Schema_GetAttributes, Schema_GetBlocks, schemaAttributes, schemaBlocks.
  split; apply map_eq; intros name;
    rewrite (lookup_map_fold_insert (λ x, x)), lookup_empty; by destruct (_ !! _).
Qed.

(** * The resolutions of a path of the framework *)

Section SchemaPathFacts.

Variable E : Equality.
Variable implStep : Node → AttributePathStep → result Node.
Variable totftypes_AttributePath : Path → tftypes_AttributePath * diag_Diagnostics.
Variable error_text : error → string.

(** X10: [Schema.AttributeAtPath] returns either no attribute and
    diagnostics that hold an error, or an attribute and the diagnostics of
    the conversion of the path (handed to an empty sequence), which hold no
    error; the attribute is then
    the one that [Schema.AttributeAtTerraformPath] returns for the converted
    path. *)
Theorem AttributeAtPath_attribute_or_error (s : Schema) (schemaPath : Path) :
  let r := Schema_AttributeAtPath E implStep totftypes_AttributePath error_text s schemaPath in
  (r.1 = None ∧ HasError r.2 = true)
  ∨ (∃ attribute,
        r.1 = Some attribute ∧ HasError r.2 = false
        ∧ r.2 = Append E [] (totftypes_AttributePath schemaPath).2
        ∧ Schema_AttributeAtTerraformPath implStep s (totftypes_AttributePath schemaPath).1
          = Ok attribute).
Proof.
  unfold Schema_AttributeAtPath.
  destruct (totftypes_AttributePath schemaPath) as [tftypesPath tftypesDiags].
  cbv zeta. cbn [fst snd].
  destruct (HasError (Append E [] tftypesDiags)) eqn:Herror; [by left|].
  destruct (Schema_AttributeAtTerraformPath implStep s tftypesPath) as [attribute|err]; cbn [fst snd].
  - right. by exists attribute.
  - left. split; [done|]. unfold AddAttributeError.
    by rewrite HasError_Append, orb_true_r.
Qed.

(** X11: [Schema.TypeAtPath] returns either the nil type and diagnostics
    that hold an error, or the type that [Schema.TypeAtTerraformPath]
    returns for the converted path and the diagnostics of the conversion
    (handed to an empty sequence), which hold no error. *)
Theorem TypeAtPath_type_or_error (s : Schema) (schemaPath : Path) :
  let r := Schema_TypeAtPath E implStep totftypes_AttributePath error_text s schemaPath in
  (r.1 = NilType ∧ HasError r.2 = true)
  ∨ (HasError r.2 = false
     ∧ r.2 = Append E [] (totftypes_AttributePath schemaPath).2
     ∧ Schema_TypeAtTerraformPath implStep s (totftypes_AttributePath schemaPath).1 = Ok r.1).
Proof.
  unfold Schema_TypeAtPath.
  destruct (totftypes_AttributePath schemaPath) as [tftypesPath tftypesDiags].
  cbv zeta. cbn [fst snd].
  destruct (HasError (Append E [] tftypesDiags)) eqn:Herror; [by left|].
  destruct (Schema_TypeAtTerraformPath implStep s tftypesPath) as [attrType|err]; cbn [fst snd].
  - by right.
  - left. split; [done|]. unfold AddAttributeError.
    by rewrite HasError_Append, orb_true_r.
Qed.

(** X12: where [Schema.AttributeAtPath] returns an attribute,
    [Schema.TypeAtPath] returns the type of that attribute, with the same
    diagnostics. *)
Theorem TypeAtPath_of_AttributeAtPath (s : Schema) (schemaPath : Path)
    (attribute : Attribute) (diags : diag_Diagnostics) :
  Schema_AttributeAtPath E implStep totftypes_AttributePath error_text s schemaPath
  = (Some attribute, diags) →
  Schema_TypeAtPath E implStep totftypes_AttributePath error_text s schemaPath
  = (GetType attribute, diags).
Proof.
  unfold Schema_AttributeAtPath, Schema_TypeAtPath.
  destruct (totftypes_AttributePath schemaPath) as [tftypesPath tftypesDiags].
  destruct (HasError (Append E [] tftypesDiags)); [done|].
  unfold Schema_AttributeAtTerraformPath, Schema_TypeAtTerraformPath.
  destruct (WalkAttributePath implStep (NSchema s) tftypesPath) as [[res remaining] [cause|]];
    [done|].
  destruct res; try done. by intros [= -> ->].
Qed.

End SchemaPathFacts.

Lemma TypeAtPath_of_AttributeAtPath_witness :
  Schema_AttributeAtPath Sample.equal model_step (λ _, ([AttributeName "tags"], [])) (λ _, "")
    Sample.schema [PathStepAttributeName "tags"]
  = (Some Sample.tags, [])
  ∧ Schema_TypeAtPath Sample.equal model_step (λ _, ([AttributeName "tags"], [])) (λ _, "")
      Sample.schema [PathStepAttributeName "tags"]
    = (ListType StringType, []).
Proof.
  split; [vm_compute; reflexivity|].
  apply (TypeAtPath_of_AttributeAtPath Sample.equal model_step (λ _, ([AttributeName "tags"], [])) (λ _, "")
           Sample.schema [PathStepAttributeName "tags"] Sample.tags []).
  vm_compute; reflexivity.
Defined.

(** * Further properties of nested attribute objects *)

(** X13: without a custom type, the type of a nested attribute object is an
    object type that holds, under every name the object steps into, the type
    of the attribute the step yields, and nothing under a name at which the
    step fails. *)
Theorem NestedAttributeObject_step_agrees_with_Type (o : NestedAttributeObject) :
  NestedAttributeObject_CustomType o = None →
  ∃ attrTypes, NestedAttributeObject_Type o = ObjectType attrTypes
    ∧ ∀ name,
        match NestedAttributeObject_ApplyTerraform5AttributePathStep o (AttributeName name) with
        | Ok n => ∃ attribute, n = NAttribute attribute
                               ∧ attrTypes !! name = Some (GetType attribute)
        | Err err => err = ErrNotFound "NestedAttributeObject" name ∧ attrTypes !! name = None
        end.
Proof.
  intros Hcustom. unfold NestedAttributeObject_Type. rewrite Hcustom.
  eexists. split; [reflexivity|]. intros name.
  rewrite lookup_map_fold_insert, lookup_empty.
  unfold NestedAttributeObject_ApplyTerraform5AttributePathStep.
  destruct (NestedAttributeObject_Attributes o !! name) as [attribute|]; eauto.
Qed.

Lemma NestedAttributeObject_step_agrees_with_Type_witness :
  NestedAttributeObject_CustomType Sample.machine = None
  ∧ ∃ attrTypes, NestedAttributeObject_Type Sample.machine = ObjectType attrTypes
      ∧ ∀ name,
          match NestedAttributeObject_ApplyTerraform5AttributePathStep Sample.machine
                  (AttributeName name) with
          | Ok n => ∃ attribute, n = NAttribute attribute
                                 ∧ attrTypes !! name = Some (GetType attribute)
          | Err err => err = ErrNotFound "NestedAttributeObject" name ∧ attrTypes !! name = None
          end.
Proof.
  split; [reflexivity|].
  apply (NestedAttributeObject_step_agrees_with_Type Sample.machine). reflexivity.
Defined.

Section EqualMore.

Variable Type_Equal : AttrType → AttrType → bool.
Variable Attribute_Equal : Attribute → Attribute → bool.

(** X14: a nested attribute object is [Equal] to itself when its type is
    [Equal] to itself and so is each of its attributes. *)
Theorem NestedAttributeObject_Equal_refl (o : NestedAttributeObject) :
  Type_Equal (NestedAttributeObject_Type o) (NestedAttributeObject_Type o) = true →
  (∀ name attribute, NestedAttributeObject_Attributes o !! name = Some attribute →
                     Attribute_Equal attribute attribute = true) →
  NestedAttributeObject_Equal Type_Equal Attribute_Equal o o = true.
Proof.
  intros Htype Hattrs. apply NestedAttributeObject_Equal_true.
  split; [done|]. split; [done|]. intros name oAttribute otherAttribute Ho Hother.
  assert (oAttribute = otherAttribute) as <- by congruence. eauto.
Qed.

(** X15: [Equal] of nested attribute objects is symmetric when the [Equal]
    of types and the [Equal] of attributes are, though its loop runs over
    the attributes of the receiver only. *)
Theorem NestedAttributeObject_Equal_sym (o other : NestedAttributeObject) :
  (∀ t u, Type_Equal t u = Type_Equal u t) →
  (∀ a b, Attribute_Equal a b = Attribute_Equal b a) →
  NestedAttributeObject_Equal Type_Equal Attribute_Equal o other
  = NestedAttributeObject_Equal Type_Equal Attribute_Equal other o.
Proof.
  intros Htype Hattr. apply eq_true_iff_eq.
  rewrite !NestedAttributeObject_Equal_true.
  rewrite (Htype (NestedAttributeObject_Type o)).
  split; intros (? & Hdom & Hall); (split; [done|]); (split; [done|]);
    intros name a b Ha Hb; rewrite Hattr; eauto.
Qed.

(** X16: [Equal] of nested attribute objects is transitive when the [Equal]
    of types and the [Equal] of attributes are. *)
Theorem NestedAttributeObject_Equal_trans (o1 o2 o3 : NestedAttributeObject) :
  (∀ t u v, Type_Equal t u = true → Type_Equal u v = true → Type_Equal t v = true) →
  (∀ a b c, Attribute_Equal a b = true → Attribute_Equal b c = true →
            Attribute_Equal a c = true) →
  NestedAttributeObject_Equal Type_Equal Attribute_Equal o1 o2 = true →
  NestedAttributeObject_Equal Type_Equal Attribute_Equal o2 o3 = true →
  NestedAttributeObject_Equal Type_Equal Attribute_Equal o1 o3 = true.
Proof.
  intros Htype Hattr. rewrite !NestedAttributeObject_Equal_true.
  intros (Ht12 & Hdom12 & Hall12) (Ht23 & Hdom23 & Hall23).
  split; [eauto|]. split; [congruence|]. intros name a c Ha Hc.
  assert (is_Some (NestedAttributeObject_Attributes o2 !! name)) as [b Hb].
  { apply elem_of_dom. rewrite <-Hdom12. apply elem_of_dom. eauto. }
  eauto.
Qed.

(** X17: two nested attribute objects that are [Equal] take the same
    steps. *)
Theorem NestedAttributeObject_Equal_same_steps (o other : NestedAttributeObject)
    (step : AttributePathStep) :
  NestedAttributeObject_Equal Type_Equal Attribute_Equal o other = true →
  (∃ n, NestedAttributeObject_ApplyTerraform5AttributePathStep o step = Ok n)
  ↔ (∃ n, NestedAttributeObject_ApplyTerraform5AttributePathStep other step = Ok n).
Proof.
  rewrite NestedAttributeObject_Equal_true. intros (_ & Hdom & _).
  unfold NestedAttributeObject_ApplyTerraform5AttributePathStep.
  destruct step as [name|key|idx|v]; [|split; intros [? [=]]..].
  assert (is_Some (NestedAttributeObject_Attributes o !! name)
          ↔ is_Some (NestedAttributeObject_Attributes other !! name)) as Hsame.
  { by rewrite <-!elem_of_dom, Hdom. }
  destruct (NestedAttributeObject_Attributes o !! name) as [a|],
           (NestedAttributeObject_Attributes other !! name) as [b|].
  - split; eauto.
  - destruct Hsame as [[? [=]] _]. eauto.
  - destruct Hsame as [_ [? [=]]]. eauto.
  - split; intros [? [=]].
Qed.

End EqualMore.

Lemma AttrType_Equal_sym (t u : AttrType) : AttrType_Equal t u = AttrType_Equal u t.
Proof. apply eq_true_iff_eq. rewrite !AttrType_Equal_eq. split; congruence. Qed.

Lemma AttrType_Equal_trans (t u v : AttrType) :
  AttrType_Equal t u = true → AttrType_Equal u v = true → AttrType_Equal t v = true.
Proof. rewrite !AttrType_Equal_eq. congruence. Qed.

Lemma Attribute_eqb_flags_sym (a b : Attribute) :
  Sample.Attribute_eqb_flags a b = Sample.Attribute_eqb_flags b a.
Proof.
  unfold Sample.Attribute_eqb_flags.
  by destruct (IsRequired a), (IsRequired b), (IsOptional a), (IsOptional b),
              (IsComputed a), (IsComputed b).
Qed.

Lemma Attribute_eqb_flags_trans (a b c : Attribute) :
  Sample.Attribute_eqb_flags a b = true → Sample.Attribute_eqb_flags b c = true →
  Sample.Attribute_eqb_flags a c = true.
Proof.
  unfold Sample.Attribute_eqb_flags.
  by destruct (IsRequired a), (IsRequired b), (IsRequired c), (IsOptional a), (IsOptional b),
              (IsOptional c), (IsComputed a), (IsComputed b), (IsComputed c).
Qed.

Lemma NestedAttributeObject_Equal_refl_witness :
  NestedAttributeObject_Equal AttrType_Equal Sample.Attribute_eqb_flags
    Sample.machine Sample.machine = true.
Proof.
  apply (NestedAttributeObject_Equal_refl AttrType_Equal Sample.Attribute_eqb_flags Sample.machine).
  - by apply AttrType_Equal_eq.
  - intros name attribute _. unfold Sample.Attribute_eqb_flags.
    by destruct (IsRequired attribute), (IsOptional attribute), (IsComputed attribute).
Defined.

Lemma NestedAttributeObject_Equal_sym_witness :
  NestedAttributeObject_Equal AttrType_Equal Sample.Attribute_eqb_flags Sample.machine Sample.nic
  = NestedAttributeObject_Equal AttrType_Equal Sample.Attribute_eqb_flags Sample.nic Sample.machine.
Proof.
  apply (NestedAttributeObject_Equal_sym AttrType_Equal Sample.Attribute_eqb_flags
           Sample.machine Sample.nic).
  - apply AttrType_Equal_sym.
  - apply Attribute_eqb_flags_sym.
Defined.

Lemma NestedAttributeObject_Equal_trans_witness :
  NestedAttributeObject_Equal AttrType_Equal Sample.Attribute_eqb_flags
    Sample.machine Sample.machine = true.
Proof.
  apply (NestedAttributeObject_Equal_trans AttrType_Equal Sample.Attribute_eqb_flags
           Sample.machine Sample.machine Sample.machine).
  - apply AttrType_Equal_trans.
  - apply Attribute_eqb_flags_trans.
  - vm_compute; reflexivity.
  - vm_compute; reflexivity.
Defined.

Lemma NestedAttributeObject_Equal_same_steps_witness :
  NestedAttributeObject_Equal AttrType_Equal Sample.Attribute_eqb_flags
    Sample.machine Sample.machine = true
  ∧ ((∃ n, NestedAttributeObject_ApplyTerraform5AttributePathStep Sample.machine
             (AttributeName "name") = Ok n)
     ↔ (∃ n, NestedAttributeObject_ApplyTerraform5AttributePathStep Sample.machine
               (AttributeName "name") = Ok n)).
Proof.
  split; [vm_compute; reflexivity|].
  apply (NestedAttributeObject_Equal_same_steps AttrType_Equal Sample.Attribute_eqb_flags
           Sample.machine Sample.machine (AttributeName "name")).
  vm_compute; reflexivity.
Defined.

(** * Further properties of attribute validation *)

Section ValidationFacts.

Variable E : Equality.

Lemma Diagnostics_resp_Append (resp : ValidateAttributeResponse) (diags : diag_Diagnostics) :
  Diagnostics (resp_Append E resp diags) = Append E (Diagnostics resp) diags.
Proof. reflexivity. Qed.

Lemma Diagnostics_resp_AddAttributeError (resp : ValidateAttributeResponse) (p : Path)
    (summary : string) (detail : list DetailPart) :
  Diagnostics (resp_AddAttributeError E resp p summary detail)
  = Append E (Diagnostics resp) [NewAttributeErrorDiagnostic p summary detail].
Proof. reflexivity. Qed.

Lemma Diagnostics_resp_AddAttributeWarning (resp : ValidateAttributeResponse) (p : Path)
    (summary : string) (detail : list DetailPart) :
  Diagnostics (resp_AddAttributeWarning E resp p summary detail)
  = Append E (Diagnostics resp) [NewAttributeWarningDiagnostic p summary detail].
Proof. reflexivity. Qed.

Lemma resp_Append_prefix (resp : ValidateAttributeResponse) (diags : diag_Diagnostics) :
  Diagnostics resp `prefix_of` Diagnostics (resp_Append E resp diags).
Proof. rewrite Diagnostics_resp_Append. apply Append_prefix. Qed.

Lemma resp_AddAttributeError_prefix (resp : ValidateAttributeResponse) (p : Path)
    (summary : string) (detail : list DetailPart) :
  Diagnostics resp `prefix_of` Diagnostics (resp_AddAttributeError E resp p summary detail).
Proof. rewrite Diagnostics_resp_AddAttributeError. apply Append_prefix. Qed.

Lemma resp_AddAttributeWarning_prefix (resp : ValidateAttributeResponse) (p : Path)
    (summary : string) (detail : list DetailPart) :
  Diagnostics resp `prefix_of` Diagnostics (resp_AddAttributeWarning E resp p summary detail).
Proof. rewrite Diagnostics_resp_AddAttributeWarning. apply Append_prefix. Qed.

(** [AttributeValidate] on an attribute whose definition passes the checks
    and whose value is fetched without error. *)
Lemma AttributeValidate_fetched (a : Attribute) (req : ValidateAttributeRequest)
    (resp : ValidateAttributeResponse) (attributeConfig : Value) (diags : diag_Diagnostics) :
  definition_checks_pass a = true →
  ValueAtPath (RequestConfig req) (AttributePath req) = (attributeConfig, diags) →
  HasError diags = false →
  AttributeValidate E a req resp
  = let fetched :=
      MkResponse (Append E (Diagnostics resp) diags)
                 (Calls resp ++ [CallValueAtPath (AttributePath req)]) in
    let checked :=
      if IsComputed a && negb (IsOptional a) && negb (IsNull attributeConfig) then
        resp_AddAttributeError E fetched (AttributePath req)
          summary_ReadOnlyAttribute detail_ReadOnlyAttribute
      else fetched in
    let checked :=
      if IsRequired a && IsNull attributeConfig then
        resp_AddAttributeError E checked (AttributePath req)
          summary_MissingRequiredAttribute (detail_MissingRequiredAttribute (AttributePath req))
      else checked in
    deprecation_step E a req attributeConfig
      (validators_then_nested E a (with_AttributeConfig req attributeConfig) checked).
Proof.
  intros Hchecks Hvalue Hdiags. rewrite AttributeValidate_unfold.
  unfold definition_checks_pass in Hchecks.
  apply andb_true_iff in Hchecks as [[H1%negb_true_iff H2%negb_true_iff]%andb_true_iff
                                     H3%negb_true_iff].
  by rewrite H1, H2, H3, Hvalue, Hdiags.
Qed.

Lemma AttributeValidate_fetch_error_aux (a : Attribute) (req : ValidateAttributeRequest)
    (resp : ValidateAttributeResponse) (attributeConfig : Value) (diags : diag_Diagnostics) :
  definition_checks_pass a = true →
  ValueAtPath (RequestConfig req) (AttributePath req) = (attributeConfig, diags) →
  HasError diags = true →
  AttributeValidate E a req resp
  = resp_Append E (record_call (CallValueAtPath (AttributePath req)) resp) diags.
Proof.
  intros Hchecks Hvalue Hdiags. rewrite AttributeValidate_unfold.
  unfold definition_checks_pass in Hchecks.
  apply andb_true_iff in Hchecks as [[H1%negb_true_iff H2%negb_true_iff]%andb_true_iff
                                     H3%negb_true_iff].
  by rewrite H1, H2, H3, Hvalue, Hdiags.
Qed.

(** X18: when the fetch of the value of an attribute returns an error,
    [AttributeValidate] hands the diagnostics of the fetch to the sequence
    of diagnostics and returns: no check of the value is made, no validator
    runs and no nested attribute is validated. *)
Theorem AttributeValidate_fetch_error (a : Attribute) (req : ValidateAttributeRequest)
    (resp : ValidateAttributeResponse) (attributeConfig : Value) (diags : diag_Diagnostics) :
  definition_checks_pass a = true →
  ValueAtPath (RequestConfig req) (AttributePath req) = (attributeConfig, diags) →
  HasError diags = true →
  AttributeValidate E a req resp
  = MkResponse (Append E (Diagnostics resp) diags)
               (Calls resp ++ [CallValueAtPath (AttributePath req)]).
Proof.
  intros Hchecks Hvalue Hdiags. rewrite AttributeValidate_unfold.
  unfold definition_checks_pass in Hchecks.
  apply andb_true_iff in Hchecks as [[H1%negb_true_iff H2%negb_true_iff]%andb_true_iff
                                     H3%negb_true_iff].
  by rewrite H1, H2, H3, Hvalue, Hdiags.
Qed.

(** X19: for an attribute that is computed and not optional and whose value
    is fetched without error and is not null, [AttributeValidate] hands,
    after the diagnostics of the fetch, one error diagnostic "Invalid
    Configuration for Read-Only Attribute" at the path of the attribute to
    the sequence of diagnostics, and with the response so extended goes on
    to the validators, the nested attributes and the deprecation warning.
    The diagnostic is added at the end unless the sequence already contains
    an equal one; a sequence that holds no error contains none. *)
Theorem AttributeValidate_read_only (a : Attribute) (req : ValidateAttributeRequest)
    (resp : ValidateAttributeResponse) (attributeConfig : Value) (diags : diag_Diagnostics) :
  IsComputed a = true → IsOptional a = false →
  definition_checks_pass a = true →
  ValueAtPath (RequestConfig req) (AttributePath req) = (attributeConfig, diags) →
  HasError diags = false →
  IsNull attributeConfig = false →
  let fetched := Append E (Diagnostics resp) diags in
  let read_only := read_only_error (AttributePath req) in
  AttributeValidate E a req resp
  = deprecation_step E a req attributeConfig
      (validators_then_nested E a (with_AttributeConfig req attributeConfig)
         (MkResponse (if Contains E fetched read_only then fetched
                      else (fetched ++ [read_only])%list)
                     (Calls resp ++ [CallValueAtPath (AttributePath req)])))
  ∧ (HasError (Diagnostics resp) = false → Contains E fetched read_only = false).
Proof.
  intros Hcomputed Hoptional Hchecks Hvalue Hdiags Hnull fetched read_only. split.
  - rewrite (AttributeValidate_fetched _ _ _ _ _ Hchecks Hvalue Hdiags).
    by rewrite Hcomputed, Hoptional, Hnull, andb_false_r.
  - intros Hnone. apply Contains_without_error; [|done].
    unfold fetched. by rewrite HasError_Append, Hnone, Hdiags.
Qed.

(** ** Validation only adds diagnostics *)

Lemma Attribute_size_nested (a : Attribute) (nm : NestingMode) (nestedObject : NestedAttributeObject)
    (name : string) (nestedAttr : Attribute) :
  AsNestedAttribute a = Some (nm, nestedObject) →
  NestedAttributeObject_Attributes nestedObject !! name = Some nestedAttr →
  Attribute_size nestedAttr < Attribute_size a.
Proof.
  destruct a as [? ? ? ? ? ? ? nested]. simpl. intros ->. simpl.
  revert name nestedAttr.
  apply (map_fold_weak_ind
           (λ total m, ∀ name nestedAttr, m !! name = Some nestedAttr →
                                           Attribute_size nestedAttr < S total)).
  - intros name nestedAttr. by rewrite lookup_empty.
  - intros i x m total Hi IH name nestedAttr.
    destruct (decide (i = name)) as [->|Hne].
    + rewrite lookup_insert_eq. intros [= ->]. lia.
    + rewrite lookup_insert_ne by done. intros Hname. specialize (IH _ _ Hname). lia.
Qed.

Lemma Attribute_validators_own (a : Attribute) (validators : list Validator) (validator : Validator) :
  AsAttributeWithValidators a = Some validators →
  validator ∈ validators → validator ∈ Attribute_validators a.
Proof.
  destruct a as [? ? ? ? ? ? own nested]. simpl. intros -> Hin. simpl.
  apply elem_of_app. by left.
Qed.

Lemma Attribute_validators_nested (a : Attribute) (nm : NestingMode)
    (nestedObject : NestedAttributeObject) (name : string) (nestedAttr : Attribute)
    (validator : Validator) :
  AsNestedAttribute a = Some (nm, nestedObject) →
  NestedAttributeObject_Attributes nestedObject !! name = Some nestedAttr →
  validator ∈ Attribute_validators nestedAttr → validator ∈ Attribute_validators a.
Proof.
  destruct a as [? ? ? ? ? ? own nested]. simpl. intros -> Hname Hin. simpl.
  apply elem_of_app. right. revert name nestedAttr Hname Hin.
  apply (map_fold_weak_ind
           (λ all m, ∀ name nestedAttr, m !! name = Some nestedAttr →
                       validator ∈ Attribute_validators nestedAttr → validator ∈ all)).
  - intros name nestedAttr. by rewrite lookup_empty.
  - intros i x m all Hi IH name nestedAttr.
    destruct (decide (i = name)) as [->|Hne].
    + rewrite lookup_insert_eq. intros [= ->] Hin. apply elem_of_app. by left.
    + rewrite lookup_insert_ne by done. intros Hname Hin. apply elem_of_app. right. eauto.
Qed.

Lemma fold_left_Diagnostics_prefix {X} (f : ValidateAttributeResponse → X → ValidateAttributeResponse)
    (xs : list X) (resp : ValidateAttributeResponse) :
  (∀ r x, Diagnostics r `prefix_of` Diagnostics (f r x)) →
  Diagnostics resp `prefix_of` Diagnostics (fold_left f xs resp).
Proof.
  intros Hf. revert resp. induction xs as [|x xs IH]; intros resp; simpl; [done|].
  by etrans; [apply (Hf resp x) | apply IH].
Qed.

Lemma map_fold_Diagnostics_prefix {X}
    (f : string → X → ValidateAttributeResponse → ValidateAttributeResponse)
    (m : gmap string X) (resp : ValidateAttributeResponse) :
  (∀ k x r, m !! k = Some x → Diagnostics r `prefix_of` Diagnostics (f k x r)) →
  Diagnostics resp `prefix_of` Diagnostics (map_fold f resp m).
Proof.
  apply (map_fold_weak_ind
           (λ r m, (∀ k x r', m !! k = Some x → Diagnostics r' `prefix_of` Diagnostics (f k x r')) →
                   Diagnostics resp `prefix_of` Diagnostics r)).
  - done.
  - intros i x m' r Hi IH Hf. etrans.
    + apply IH. intros k y r' Hk. apply Hf. rewrite lookup_insert_ne; [done|]. congruence.
    + apply Hf. apply lookup_insert_eq.
Qed.

Lemma run_validators_prefix (validators : list Validator) (req : ValidateAttributeRequest)
    (resp : ValidateAttributeResponse) :
  Forall appends_only validators →
  Diagnostics resp `prefix_of` Diagnostics (run_validators validators req resp).
Proof.
  intros Hall. revert resp. unfold run_validators.
  induction Hall as [|validator validators Hv _ IH]; intros resp; simpl; [done|].
  etrans; [|apply IH]. simpl. apply Hv.
Qed.

Section NestedPrefix.

Variable validate : Attribute → ValidateAttributeRequest → ValidateAttributeResponse → ValidateAttributeResponse.

Lemma validate_nested_attributes_prefix (attrs : gmap string Attribute)
    (req : ValidateAttributeRequest) (at_element : Path → Path) (resp : ValidateAttributeResponse) :
  (∀ name nestedAttr, attrs !! name = Some nestedAttr →
     ∀ req resp, Diagnostics resp `prefix_of` Diagnostics (validate nestedAttr req resp)) →
  Diagnostics resp `prefix_of` Diagnostics (validate_nested_attributes validate attrs req at_element resp).
Proof.
  intros Hvalidate. unfold validate_nested_attributes.
  apply map_fold_Diagnostics_prefix. intros name nestedAttr r Hname.
  etrans; [|by eapply Hvalidate]. done.
Qed.

Lemma AttributeValidateNestedAttributes_body_prefix (a : Attribute)
    (req : ValidateAttributeRequest) (resp : ValidateAttributeResponse) :
  (∀ nm nestedObject name nestedAttr,
     AsNestedAttribute a = Some (nm, nestedObject) →
     NestedAttributeObject_Attributes nestedObject !! name = Some nestedAttr →
     ∀ req resp, Diagnostics resp `prefix_of` Diagnostics (validate nestedAttr req resp)) →
  Diagnostics resp `prefix_of` Diagnostics (AttributeValidateNestedAttributes_body E validate a req resp).
Proof.
  intros Hnested. unfold AttributeValidateNestedAttributes_body.
  destruct (AsNestedAttribute a) as [[nm nestedObject]|]; [|done].
  specialize (Hnested nm nestedObject).
  destruct (_ && _); [done|].
  pose proof (resp_AddAttributeError_prefix resp) as Herr.
  assert (∀ c diags, Diagnostics resp
                     `prefix_of` Diagnostics (resp_Append E (record_call c resp) diags)) as Happ
    by (intros; apply (resp_Append_prefix (record_call _ resp))).
  destruct nm.
  - apply Herr.
  - destruct (AttributeConfig req ≫= AsObjectValuable) as [[o diags]|]; [|apply Herr].
    cbv zeta. destruct (HasError _); [apply Happ|]. destruct (_ || _); [apply Happ|].
    etrans; [apply (Happ (CallToObjectValue (AttributePath req)) (of_message <$> diags))|].
    apply validate_nested_attributes_prefix. eauto.
  - destruct (AttributeConfig req ≫= AsListValuable) as [[l diags]|]; [|apply Herr].
    cbv zeta. destruct (HasError _); [apply Happ|].
    etrans; [apply (Happ (CallToListValue (AttributePath req)) (of_message <$> diags))|].
    apply fold_left_Diagnostics_prefix. intros r idx.
    apply validate_nested_attributes_prefix. eauto.
  - destruct (AttributeConfig req ≫= AsSetValuable) as [[s diags]|]; [|apply Herr].
    cbv zeta. destruct (HasError _); [apply Happ|].
    etrans; [apply (Happ (CallToSetValue (AttributePath req)) (of_message <$> diags))|].
    apply fold_left_Diagnostics_prefix. intros r value.
    apply validate_nested_attributes_prefix. eauto.
  - destruct (AttributeConfig req ≫= AsMapValuable) as [[m diags]|]; [|apply Herr].
    cbv zeta. destruct (HasError _); [apply Happ|].
    etrans; [apply (Happ (CallToMapValue (AttributePath req)) (of_message <$> diags))|].
    apply map_fold_Diagnostics_prefix. intros key value r _.
    apply validate_nested_attributes_prefix. eauto.
Qed.

End NestedPrefix.

Lemma deprecation_step_prefix (a : Attribute) (req : ValidateAttributeRequest)
    (attributeConfig : Value) (resp : ValidateAttributeResponse) :
  Diagnostics resp `prefix_of` Diagnostics (deprecation_step E a req attributeConfig resp).
Proof.
  unfold deprecation_step. destruct (_ && _); [apply resp_AddAttributeWarning_prefix | done].
Qed.

(** When every validator of an attribute and of the attributes nested in it
    only adds diagnostics, the diagnostics of the response are a prefix of
    those that [AttributeValidate] returns. *)
Lemma AttributeValidate_prefix (a : Attribute) (req : ValidateAttributeRequest)
    (resp : ValidateAttributeResponse) :
  Forall appends_only (Attribute_validators a) →
  Diagnostics resp `prefix_of` Diagnostics (AttributeValidate E a req resp).
Proof.
  remember (Attribute_size a) as n eqn:Hn. revert a Hn req resp.
  induction n as [n IH] using lt_wf_ind. intros a -> req resp Hall.
  pose proof (resp_AddAttributeError_prefix resp) as Herr.
  assert (∀ diags, Diagnostics resp
                   `prefix_of` Diagnostics
                     (resp_Append E (record_call (CallValueAtPath (AttributePath req)) resp) diags))
    as Happ by (intros; apply (resp_Append_prefix (record_call _ resp))).
  rewrite AttributeValidate_unfold.
  destruct (_ && _); [apply Herr|]. destruct (_ && _); [apply Herr|].
  destruct (_ && _); [apply Herr|].
  destruct (ValueAtPath (RequestConfig req) (AttributePath req)) as [attributeConfig diags].
  cbv zeta. destruct (HasError diags); [apply Happ|].
  etrans; [|apply (deprecation_step_prefix a req attributeConfig)].
  unfold validators_then_nested, AttributeValidateNestedAttributes.
  etrans; [|apply AttributeValidateNestedAttributes_body_prefix].
  - etrans; [apply (Happ diags)|].
    etrans; [|destruct (AsAttributeWithValidators a) as [validators|] eqn:Hvalidators;
              [apply run_validators_prefix|reflexivity]].
    + destruct (_ && _), (_ && _);
        repeat (etrans; [|apply resp_AddAttributeError_prefix]); reflexivity.
    + apply Forall_forall. intros validator Hin.
      eapply (proj1 (Forall_forall _ _) Hall), Attribute_validators_own; eauto.
  - intros nm nestedObject name nestedAttr Hnested Hname req' resp'.
    eapply (IH (Attribute_size nestedAttr)); [by eapply Attribute_size_nested|done|].
    apply Forall_forall. intros validator Hin.
    eapply (proj1 (Forall_forall _ _) Hall), Attribute_validators_nested; eauto.
Qed.

Lemma HasError_prefix (diags later : diag_Diagnostics) :
  diags `prefix_of` later → HasError diags = true → HasError later = true.
Proof. intros [added ->] Herror. by rewrite HasError_app, Herror. Qed.

Lemma validators_then_nested_prefix (a : Attribute) (req : ValidateAttributeRequest)
    (resp : ValidateAttributeResponse) :
  Forall appends_only (Attribute_validators a) →
  Diagnostics resp `prefix_of` Diagnostics (validators_then_nested E a req resp).
Proof.
  intros Hall. unfold validators_then_nested, AttributeValidateNestedAttributes.
  etrans; [|apply AttributeValidateNestedAttributes_body_prefix].
  - destruct (AsAttributeWithValidators a) as [validators|] eqn:Hvalidators; [|done].
    apply run_validators_prefix, Forall_forall. intros validator Hin.
    eapply (proj1 (Forall_forall _ _) Hall), Attribute_validators_own; eauto.
  - intros nm nestedObject name nestedAttr Hnested Hname req' resp'.
    apply AttributeValidate_prefix, Forall_forall. intros validator Hin.
    eapply (proj1 (Forall_forall _ _) Hall), Attribute_validators_nested; eauto.
Qed.

(** X20: when every validator of an attribute and of the attributes nested
    in it only adds diagnostics, so does [AttributeValidate]: what it
    returns are the diagnostics of the response it is given, in their
    order, followed by those it added; an error among the former is an
    error of the result. *)
Theorem AttributeValidate_keeps_diagnostics (a : Attribute) (req : ValidateAttributeRequest)
    (resp : ValidateAttributeResponse) :
  Forall appends_only (Attribute_validators a) →
  (∃ added, Diagnostics (AttributeValidate E a req resp) = (Diagnostics resp ++ added)%list)
  ∧ (HasError (Diagnostics resp) = true →
     HasError (Diagnostics (AttributeValidate E a req resp)) = true).
Proof.
  intros Hall. pose proof (AttributeValidate_prefix a req resp Hall) as Hprefix.
  split; [exact Hprefix|]. by apply HasError_prefix.
Qed.

(** X21: an attribute that is required and computed but not optional never
    validates without an error, whatever its value: a null value misses the
    required configuration, any other value is set for a read-only
    attribute, and a fetch that fails holds an error itself. *)
Theorem required_computed_always_error (a : Attribute) (req : ValidateAttributeRequest)
    (resp : ValidateAttributeResponse) :
  IsRequired a = true → IsComputed a = true → IsOptional a = false →
  definition_checks_pass a = true →
  Forall appends_only (Attribute_validators a) →
  HasError (Diagnostics (AttributeValidate E a req resp)) = true.
Proof.
  intros Hrequired Hcomputed Hoptional Hchecks Hall.
  destruct (ValueAtPath (RequestConfig req) (AttributePath req)) as [attributeConfig diags] eqn:Hvalue.
  destruct (HasError diags) eqn:Hdiags.
  - rewrite (AttributeValidate_fetch_error_aux _ _ _ _ _ Hchecks Hvalue Hdiags).
    by rewrite Diagnostics_resp_Append, HasError_Append, Hdiags, orb_true_r.
  - rewrite (AttributeValidate_fetched _ _ _ _ _ Hchecks Hvalue Hdiags).
    rewrite Hrequired, Hcomputed, Hoptional. cbv zeta.
    eapply HasError_prefix; [apply deprecation_step_prefix|].
    eapply HasError_prefix; [by apply validators_then_nested_prefix|].
    destruct (IsNull attributeConfig); cbn [andb negb];
      by rewrite Diagnostics_resp_AddAttributeError, HasError_Append, orb_true_r.
Qed.

(** ** The nested validation and the value it is given *)

(** X22: when the value of a nested attribute of mode list, set, map or
    single does not implement the conversion of that mode, the nested
    validation hands one error diagnostic "Attribute Validation Error
    Invalid Value Type" at the path of the attribute to the sequence of
    diagnostics and does nothing else: no conversion is called and no nested
    attribute is validated.  The diagnostic is added at the end unless the
    sequence already contains an equal one; a sequence that holds no error
    contains none. *)
Theorem nested_validation_wrong_value_type (a : Attribute) (req : ValidateAttributeRequest)
    (resp : ValidateAttributeResponse) (nm : NestingMode) (nestedObject : NestedAttributeObject) :
  AsNestedAttribute a = Some (nm, nestedObject) →
  nm ≠ NestingModeUnknown →
  converts_for nm (AttributeConfig req) = false →
  ∃ detail,
    let invalid :=
      MkDiagnostic SeverityError (Some (AttributePath req))
                   "Attribute Validation Error Invalid Value Type" detail in
    AttributeValidateNestedAttributes E a req resp
    = MkResponse
        (if Contains E (Diagnostics resp) invalid then Diagnostics resp
         else (Diagnostics resp ++ [invalid])%list)
        (Calls resp)
    ∧ (HasError (Diagnostics resp) = false → Contains E (Diagnostics resp) invalid = false).
Proof.
  intros Hnested Hmode Hconverts. unfold_nested. rewrite Hnested.
  replace (AsTfsdkAttribute a && NestingMode_eqb nm NestingModeUnknown) with false
    by (destruct nm, (AsTfsdkAttribute a); done).
  destruct nm; simpl in Hconverts; try done;
    apply bool_decide_eq_false in Hconverts;
    (destruct (AttributeConfig req ≫= _) as [converted|];
     [by destruct Hconverts|]);
    (eexists; split; [reflexivity|]; intros Hnone; by apply Contains_without_error).
Qed.

(** X23: for a nested attribute whose nesting mode is unknown, the nested
    validation leaves the response as it is when the attribute is a
    [tfsdk.Attribute], and otherwise hands one error diagnostic "Attribute
    Validation Error" at the path of the attribute to the sequence of
    diagnostics, which adds it at the end unless it already contains an
    equal one; in both cases no nested attribute is validated. *)
Theorem nested_validation_unknown_mode (a : Attribute) (req : ValidateAttributeRequest)
    (resp : ValidateAttributeResponse) (nestedObject : NestedAttributeObject) :
  AsNestedAttribute a = Some (NestingModeUnknown, nestedObject) →
  let unknown :=
    MkDiagnostic SeverityError (Some (AttributePath req)) "Attribute Validation Error"
                 (detail_UnknownNestingMode NestingModeUnknown (AttributePath req)) in
  AttributeValidateNestedAttributes E a req resp
  = if AsTfsdkAttribute a then resp
    else MkResponse
           (if Contains E (Diagnostics resp) unknown then Diagnostics resp
            else (Diagnostics resp ++ [unknown])%list)
           (Calls resp).
Proof. intros Hnested. unfold_nested. rewrite Hnested. by destruct (AsTfsdkAttribute a). Qed.

(** ** The validators of an attribute *)

Lemma run_validators_Calls (validators : list Validator) (req : ValidateAttributeRequest)
    (resp : ValidateAttributeResponse) :
  Calls (run_validators validators req resp)
  = (Calls resp
     ++ ((λ validator, CallValidate (Description validator) (AttributePath req)) <$> validators))%list.
Proof.
  revert resp. unfold run_validators.
  induction validators as [|validator validators IH]; intros resp; simpl.
  - by rewrite app_nil_r.
  - rewrite IH. simpl. by rewrite <-app_assoc.
Qed.

(** X24: for an attribute without nested attributes whose definition passes
    the checks and whose value is fetched without error, [AttributeValidate]
    fetches the value once and then calls every validator once, in the order
    of [GetValidators]; it does so also when the value has just been found
    missing or read-only. *)
Theorem validators_called_in_order (a : Attribute) (req : ValidateAttributeRequest)
    (resp : ValidateAttributeResponse) (validators : list Validator) :
  AsNestedAttribute a = None →
  AsAttributeWithValidators a = Some validators →
  definition_checks_pass a = true →
  HasError (ValueAtPath (RequestConfig req) (AttributePath req)).2 = false →
  Calls (AttributeValidate E a req resp)
  = (Calls resp
     ++ CallValueAtPath (AttributePath req)
        :: ((λ validator, CallValidate (Description validator) (AttributePath req))
              <$> validators))%list.
Proof.
  intros Hnested Hvalidators Hchecks Hdiags.
  destruct (ValueAtPath (RequestConfig req) (AttributePath req)) as [attributeConfig diags] eqn:Hvalue.
  rewrite (AttributeValidate_fetched _ _ _ _ _ Hchecks Hvalue Hdiags).
  unfold deprecation_step, validators_then_nested, AttributeValidateNestedAttributes,
    AttributeValidateNestedAttributes_body.
  rewrite Hnested, Hvalidators. cbv zeta.
  assert (∀ r p s d, Calls (resp_AddAttributeError E r p s d) = Calls r) as Herr by done.
  assert (∀ r p s d, Calls (resp_AddAttributeWarning E r p s d) = Calls r) as Hwarn by done.
  destruct (_ && _ && _); rewrite ?Hwarn, run_validators_Calls;
    destruct (IsRequired a && IsNull attributeConfig), (_ && _ && _);
    rewrite ?Herr; cbn [Calls]; by rewrite <-app_assoc.
Qed.

(** ** The elements of a nested attribute *)

(** A required attribute without validators and nested attributes whose
    value is not set hands the one error of the missing configuration to the
    sequence of diagnostics. *)
Lemma required_leaf_unset (nestedAttr : Attribute) (req : ValidateAttributeRequest)
    (resp : ValidateAttributeResponse) :
  required_leaf nestedAttr = true →
  unset_at (RequestConfig req) (AttributePath req) →
  AttributeValidate E nestedAttr req resp
  = MkResponse (Append E (Diagnostics resp) [missing_required_error (AttributePath req)])
               (Calls resp ++ [CallValueAtPath (AttributePath req)]).
Proof.
  unfold required_leaf. intros Hleaf (attributeConfig & Hvalue & Hnull).
  apply andb_true_iff in Hleaf as [[[Hrequired Hchecks]%andb_true_iff Hvalidators]%andb_true_iff
                                   Hnested].
  rewrite (AttributeValidate_fetched _ _ _ _ _ Hchecks Hvalue eq_refl).
  unfold deprecation_step, validators_then_nested, AttributeValidateNestedAttributes,
    AttributeValidateNestedAttributes_body.
  destruct (AsAttributeWithValidators nestedAttr); [done|].
  destruct (AsNestedAttribute nestedAttr); [done|].
  by rewrite Hrequired, Hnull, !andb_false_r.
Qed.

(** The attributes of one element, for a nested object with the one
    attribute [name]. *)
Lemma validate_nested_attributes_one (name : string) (nestedAttr : Attribute)
    (req : ValidateAttributeRequest) (at_element : Path → Path) (resp : ValidateAttributeResponse) :
  required_leaf nestedAttr = true →
  unset_at (RequestConfig req) (AtName (at_element (AttributePath req)) name) →
  Diagnostics (validate_nested_attributes (AttributeValidate E) {[ name := nestedAttr ]} req
                 at_element resp)
  = Append E (Diagnostics resp)
      [missing_required_error (AtName (at_element (AttributePath req)) name)].
Proof.
  intros Hleaf Hunset. unfold validate_nested_attributes.
  rewrite map_fold_singleton. by rewrite required_leaf_unset.
Qed.

(** The loop over the elements, from the first to the last. *)
Lemma elements_fold_left {X} (xs : list X) (at_element : X → Path → Path)
    (name : string) (nestedAttr : Attribute) (req : ValidateAttributeRequest)
    (resp : ValidateAttributeResponse) :
  required_leaf nestedAttr = true →
  (∀ x, x ∈ xs → unset_at (RequestConfig req) (AtName (at_element x (AttributePath req)) name)) →
  Diagnostics (fold_left
                 (λ resp x, validate_nested_attributes (AttributeValidate E)
                              {[ name := nestedAttr ]} req (at_element x) resp)
                 xs resp)
  = Append E (Diagnostics resp)
      ((λ x, missing_required_error (AtName (at_element x (AttributePath req)) name)) <$> xs).
Proof.
  intros Hleaf. revert resp. induction xs as [|x xs IH]; intros resp Hunset; [done|].
  cbn [fold_left]. rewrite IH by (intros; apply Hunset; by right).
  by rewrite validate_nested_attributes_one by (done || apply Hunset; by left).
Qed.

(** The loop over the keys of a map. *)
Lemma elements_map_fold {X} (m : gmap string X) (at_element : string → Path → Path)
    (name : string) (nestedAttr : Attribute) (req : ValidateAttributeRequest)
    (resp : ValidateAttributeResponse) :
  required_leaf nestedAttr = true →
  (∀ key, key ∈ dom m →
          unset_at (RequestConfig req) (AtName (at_element key (AttributePath req)) name)) →
  Diagnostics (map_fold
                 (λ key _ resp, validate_nested_attributes (AttributeValidate E)
                                  {[ name := nestedAttr ]} req (at_element key) resp)
                 resp m)
  = Append E (Diagnostics resp)
      ((λ key, missing_required_error (AtName (at_element key (AttributePath req)) name))
         <$> reverse (map_to_list m).*1).
Proof.
  intros Hleaf Hunset. rewrite map_fold_foldr.
  assert (∀ key, key ∈ (map_to_list m).*1 →
                 unset_at (RequestConfig req) (AtName (at_element key (AttributePath req)) name))
    as Hkeys.
  { intros key ([key' element] & -> & Hin%elem_of_map_to_list)%list_elem_of_fmap.
    apply Hunset, elem_of_dom. eauto. }
  clear Hunset. induction (map_to_list m) as [|[key element] entries IH]; [done|].
  cbn [foldr fmap list_fmap fst uncurry].
  rewrite validate_nested_attributes_one by (done || apply Hkeys; by left).
  rewrite IH by (intros; apply Hkeys; by right).
  by rewrite reverse_cons, fmap_app, Append_app.
Qed.

Lemma map_to_list_keys {X} (m : gmap string X) : (map_to_list m).*1 ≡ₚ elements (dom m).
Proof.
  apply NoDup_Permutation; [apply NoDup_fst_map_to_list | apply NoDup_elements|].
  intros key. rewrite elem_of_elements, elem_of_dom, list_elem_of_fmap. split.
  - intros ([key' element] & -> & Hin%elem_of_map_to_list). eauto.
  - intros [element Hkey]. exists (key, element). by rewrite elem_of_map_to_list.
Qed.

(** The errors of the missing configuration of one attribute under two
    elements whose steps differ are not equal. *)
Lemma missing_required_error_differs (p : Path) (s t : PathStep) (name : string) :
  PathStep_Equal E s t = false →
  Diagnostic_Equal E (missing_required_error (AtName (p ++ [s]) name))
                     (missing_required_error (AtName (p ++ [t]) name)) = false.
Proof.
  intros Hstep. unfold Diagnostic_Equal, missing_required_error, AtName.
  cbn [DiagSeverity DiagPath DiagSummary DiagDetail Severity_eqb andb].
  destruct (Path_Equal E ((p ++ [s]) ++ [PathStepAttributeName name])
                         ((p ++ [t]) ++ [PathStepAttributeName name])) eqn:Hpath; [|done].
  rewrite <-!app_assoc in Hpath. apply Path_Equal_app in Hpath.
  simpl in Hpath. by rewrite Hstep in Hpath.
Qed.

(** Errors of the missing configuration under elements whose steps differ
    from one another are all added to a sequence that holds no error. *)
Lemma Append_missing_required_errors {X} (xs : list X) (step : X → PathStep) (p : Path)
    (name : string) (diags : diag_Diagnostics) :
  HasError diags = false →
  (∀ i j xi xj, (i < j)%nat → xs !! i = Some xi → xs !! j = Some xj →
                PathStep_Equal E (step xi) (step xj) = false) →
  Append E diags ((λ x, missing_required_error (AtName (p ++ [step x]) name)) <$> xs)
  = (diags ++ ((λ x, missing_required_error (AtName (p ++ [step x]) name)) <$> xs))%list.
Proof.
  intros Hnone Hdistinct. apply Append_fresh.
  - intros d (x & -> & _)%list_elem_of_fmap. by apply Contains_without_error.
  - intros i j di dj Hlt Hi Hj. rewrite list_lookup_fmap in Hi, Hj.
    destruct (xs !! i) as [xi|] eqn:Hxi; [|done].
    destruct (xs !! j) as [xj|] eqn:Hxj; [|done].
    injection Hi as <-. injection Hj as <-.
    apply missing_required_error_differs. by eapply Hdistinct.
Qed.

(** X25: for a nested attribute of mode list whose nested object has one
    attribute, required and without validators or nested attributes, and
    whose elements all leave it unset: when the response holds no error and
    the conversion returns none, the nested validation hands the diagnostics
    of the conversion to the sequence of diagnostics and then adds one error
    of the missing configuration for every element, at the path of the
    attribute under the index of the element, from index 0 upwards.  An
    error at one element does not keep the later elements from being
    validated. *)
Theorem list_elements_validated_in_order (a : Attribute) (req : ValidateAttributeRequest)
    (resp : ValidateAttributeResponse) (nestedObject : NestedAttributeObject) (name : string)
    (nestedAttr : Attribute) (value : Value) (l : list Value) (diags : list Message) :
  AsNestedAttribute a = Some (NestingModeList, nestedObject) →
  NestedAttributeObject_Attributes nestedObject = {[ name := nestedAttr ]} →
  required_leaf nestedAttr = true →
  AttributeConfig req = Some value →
  AsListValuable value = Some (l, diags) →
  HasError (Diagnostics resp) = false →
  HasError (of_message <$> diags) = false →
  (∀ idx, idx < length l →
          unset_at (RequestConfig req) (AtName (AtListIndex (AttributePath req) idx) name)) →
  Diagnostics (AttributeValidateNestedAttributes E a req resp)
  = (Append E (Diagnostics resp) (of_message <$> diags)
     ++ ((λ idx, missing_required_error (AtName (AtListIndex (AttributePath req) idx) name))
           <$> seq 0 (length l)))%list.
Proof.
  intros Hnested Hattrs Hleaf Hconfig Hlist Herror Hdiags Hunset. unfold_nested.
  rewrite Hnested, Hconfig, Hattrs. simpl. rewrite Hlist, andb_false_r. simpl.
  rewrite HasError_Append, Herror, Hdiags. simpl.
  rewrite (elements_fold_left (seq 0 (length l)) (λ idx p, AtListIndex p idx)); [|done|].
  - simpl. unfold AtListIndex.
    apply (Append_missing_required_errors (seq 0 (length l))
             (λ idx, PathStepElementKeyInt (Z.of_nat idx))).
    + by rewrite HasError_Append, Herror, Hdiags.
    + intros i j xi xj Hlt [-> _]%lookup_seq [-> _]%lookup_seq. simpl.
      apply Z.eqb_neq. lia.
  - intros idx Hidx%elem_of_seq. apply Hunset. lia.
Qed.

(** X26: in mode set, under the same conditions, the nested validation
    hands one error of the missing configuration for every element to the
    sequence of diagnostics, in the order of the elements, at the path of
    the attribute under the value of the element; the sequence leaves out
    an error that it already contains, so of two elements of equal value
    the second adds none. *)
Theorem set_elements_validated_by_value (a : Attribute) (req : ValidateAttributeRequest)
    (resp : ValidateAttributeResponse) (nestedObject : NestedAttributeObject) (name : string)
    (nestedAttr : Attribute) (value : Value) (s : list Value) (diags : list Message) :
  AsNestedAttribute a = Some (NestingModeSet, nestedObject) →
  NestedAttributeObject_Attributes nestedObject = {[ name := nestedAttr ]} →
  required_leaf nestedAttr = true →
  AttributeConfig req = Some value →
  AsSetValuable value = Some (s, diags) →
  HasError (Diagnostics resp) = false →
  HasError (of_message <$> diags) = false →
  (∀ element, element ∈ s →
              unset_at (RequestConfig req) (AtName (AtSetValue (AttributePath req) element) name)) →
  Diagnostics (AttributeValidateNestedAttributes E a req resp)
  = Append E (Append E (Diagnostics resp) (of_message <$> diags))
      ((λ element, missing_required_error (AtName (AtSetValue (AttributePath req) element) name))
         <$> s).
Proof.
  intros Hnested Hattrs Hleaf Hconfig Hset Herror Hdiags Hunset. unfold_nested.
  rewrite Hnested, Hconfig, Hattrs. simpl. rewrite Hset, andb_false_r. simpl.
  rewrite HasError_Append, Herror, Hdiags. simpl.
  by rewrite (elements_fold_left s (λ element p, AtSetValue p element)).
Qed.

(** X27: in mode map, under the same conditions, the nested validation
    adds one error of the missing configuration for every key of the
    map, each key once, at the path of the attribute under that key. *)
Theorem map_elements_validated_by_key (a : Attribute) (req : ValidateAttributeRequest)
    (resp : ValidateAttributeResponse) (nestedObject : NestedAttributeObject) (name : string)
    (nestedAttr : Attribute) (value : Value) (m : gmap string Value) (diags : list Message) :
  AsNestedAttribute a = Some (NestingModeMap, nestedObject) →
  NestedAttributeObject_Attributes nestedObject = {[ name := nestedAttr ]} →
  required_leaf nestedAttr = true →
  AttributeConfig req = Some value →
  AsMapValuable value = Some (m, diags) →
  HasError (Diagnostics resp) = false →
  HasError (of_message <$> diags) = false →
  (∀ key, key ∈ dom m →
          unset_at (RequestConfig req) (AtName (AtMapKey (AttributePath req) key) name)) →
  ∃ keys, keys ≡ₚ elements (dom m)
    ∧ Diagnostics (AttributeValidateNestedAttributes E a req resp)
      = (Append E (Diagnostics resp) (of_message <$> diags)
         ++ ((λ key, missing_required_error (AtName (AtMapKey (AttributePath req) key) name))
               <$> keys))%list.
Proof.
  intros Hnested Hattrs Hleaf Hconfig Hmap Herror Hdiags Hunset.
  exists (reverse (map_to_list m).*1). split.
  { rewrite reverse_Permutation. apply map_to_list_keys. }
  unfold_nested.
  rewrite Hnested, Hconfig, Hattrs. simpl. rewrite Hmap, andb_false_r. simpl.
  rewrite HasError_Append, Herror, Hdiags. simpl.
  rewrite (elements_map_fold m (λ key p, AtMapKey p key)); [|done..].
  simpl. unfold AtMapKey.
  apply (Append_missing_required_errors (reverse (map_to_list m).*1) PathStepElementKeyString).
  - by rewrite HasError_Append, Herror, Hdiags.
  - intros i j xi xj Hlt Hi Hj. simpl. apply String.eqb_neq. intros ->.
    assert (NoDup (reverse (map_to_list m).*1)) as Hnodup
      by (rewrite reverse_Permutation; apply NoDup_fst_map_to_list).
    pose proof (NoDup_lookup _ _ _ _ Hnodup Hi Hj). lia.
Qed.

(** X28: in mode single, under the same conditions and for an object that
    is neither null nor unknown, the nested validation validates the nested
    attribute at the path of the attribute extended by its name alone, and
    adds its error of the missing configuration. *)
Theorem single_known_object_validated (a : Attribute) (req : ValidateAttributeRequest)
    (resp : ValidateAttributeResponse) (nestedObject : NestedAttributeObject) (name : string)
    (nestedAttr : Attribute) (value : Value) (o : ObjectValue) (diags : list Message) :
  AsNestedAttribute a = Some (NestingModeSingle, nestedObject) →
  NestedAttributeObject_Attributes nestedObject = {[ name := nestedAttr ]} →
  required_leaf nestedAttr = true →
  AttributeConfig req = Some value →
  AsObjectValuable value = Some (o, diags) →
  ObjectIsNull o = false → ObjectIsUnknown o = false →
  HasError (Diagnostics resp) = false →
  HasError (of_message <$> diags) = false →
  unset_at (RequestConfig req) (AtName (AttributePath req) name) →
  Diagnostics (AttributeValidateNestedAttributes E a req resp)
  = (Append E (Diagnostics resp) (of_message <$> diags)
     ++ [missing_required_error (AtName (AttributePath req) name)])%list.
Proof.
  intros Hnested Hattrs Hleaf Hconfig Hobject Hnull Hunknown Herror Hdiags Hunset. unfold_nested.
  rewrite Hnested, Hconfig, Hattrs. simpl. rewrite Hobject, Hnull, Hunknown, andb_false_r. simpl.
  rewrite HasError_Append, Herror, Hdiags. simpl.
  rewrite (validate_nested_attributes_one name nestedAttr _ (λ p, p)); [|done..].
  unfold resp_Append, set_Diagnostics, record_call. cbn [Diagnostics].
  rewrite Append_one, Contains_without_error; [done| |done].
  by rewrite HasError_Append, Herror, Hdiags.
Qed.

End ValidationFacts.

Lemma AttributeValidate_fetch_error_witness :
  definition_checks_pass Sample.validated_string = true
  ∧ HasError (ValueAtPath Sample.failing Sample.name_path).2 = true
  ∧ AttributeValidate Sample.equal Sample.validated_string
      (MkRequest Sample.name_path Sample.name_path Sample.failing None) Sample.empty_response
    = MkResponse [NewAttributeErrorDiagnostic Sample.name_path "Read Error" []]
                 [CallValueAtPath Sample.name_path].
Proof.
  repeat (split; [reflexivity|]).
  apply (AttributeValidate_fetch_error Sample.equal Sample.validated_string
           (MkRequest Sample.name_path Sample.name_path Sample.failing None)
           Sample.empty_response Sample.StringNull
           [NewAttributeErrorDiagnostic Sample.name_path "Read Error" []]);
    reflexivity.
Defined.

Lemma AttributeValidate_read_only_witness :
  IsComputed Sample.computed_string = true
  ∧ IsOptional Sample.computed_string = false
  ∧ definition_checks_pass Sample.computed_string = true
  ∧ ValueAtPath Sample.config [PathStepAttributeName "id"] = (Sample.StringKnown, [])
  ∧ IsNull Sample.StringKnown = false
  ∧ AttributeValidate Sample.equal Sample.computed_string
      (Sample.request [PathStepAttributeName "id"]) Sample.empty_response
    = MkResponse [read_only_error [PathStepAttributeName "id"]]
                 [CallValueAtPath [PathStepAttributeName "id"]].
Proof.
  repeat (split; [reflexivity|]).
  apply (AttributeValidate_read_only Sample.equal Sample.computed_string
           (Sample.request [PathStepAttributeName "id"]) Sample.empty_response
           Sample.StringKnown []);
    reflexivity.
Defined.

Lemma appends_only_warn : appends_only Sample.warn.
Proof. intros req diags. apply Append_prefix. Qed.

Lemma appends_only_reject : appends_only Sample.reject.
Proof. intros req diags. apply Append_prefix. Qed.

Lemma AttributeValidate_keeps_diagnostics_witness :
  (∃ added,
      Diagnostics (AttributeValidate Sample.equal Sample.validated_string
                     (Sample.request Sample.name_path) Sample.after_name)
      = (Diagnostics Sample.after_name ++ added)%list)
  ∧ (HasError (Diagnostics Sample.after_name) = true →
     HasError (Diagnostics (AttributeValidate Sample.equal Sample.validated_string
                              (Sample.request Sample.name_path) Sample.after_name)) = true).
Proof.
  apply (AttributeValidate_keeps_diagnostics Sample.equal Sample.validated_string
           (Sample.request Sample.name_path) Sample.after_name).
  repeat constructor; [apply appends_only_warn | apply appends_only_reject].
Defined.

Lemma required_computed_always_error_witness :
  HasError (Diagnostics (AttributeValidate Sample.equal Sample.required_computed_string
                           (Sample.request [PathStepAttributeName "id"])
                           Sample.empty_response)) = true.
Proof.
  apply (required_computed_always_error Sample.equal Sample.required_computed_string
           (Sample.request [PathStepAttributeName "id"]) Sample.empty_response);
    try reflexivity.
  constructor.
Defined.

Lemma nested_validation_wrong_value_type_witness :
  AsNestedAttribute Sample.nics = Some (NestingModeList, Sample.nic)
  ∧ converts_for NestingModeList
      (AttributeConfig (with_AttributeConfig (Sample.request Sample.nics_path) Sample.ObjectKnown))
    = false
  ∧ ∃ detail,
      let invalid :=
        MkDiagnostic SeverityError
                     (Some (AttributePath (with_AttributeConfig (Sample.request Sample.nics_path)
                                             Sample.ObjectKnown)))
                     "Attribute Validation Error Invalid Value Type" detail in
      AttributeValidateNestedAttributes Sample.equal Sample.nics
        (with_AttributeConfig (Sample.request Sample.nics_path) Sample.ObjectKnown)
        Sample.empty_response
      = MkResponse
          (if Contains Sample.equal (Diagnostics Sample.empty_response) invalid
           then Diagnostics Sample.empty_response
           else (Diagnostics Sample.empty_response ++ [invalid])%list)
          (Calls Sample.empty_response)
      ∧ (HasError (Diagnostics Sample.empty_response) = false →
         Contains Sample.equal (Diagnostics Sample.empty_response) invalid = false).
Proof.
  repeat (split; [reflexivity|]).
  apply (nested_validation_wrong_value_type Sample.equal Sample.nics
           (with_AttributeConfig (Sample.request Sample.nics_path) Sample.ObjectKnown)
           Sample.empty_response NestingModeList Sample.nic); done.
Defined.

Lemma nested_validation_unknown_mode_witness :
  AsNestedAttribute Sample.nic_unknown_mode = Some (NestingModeUnknown, Sample.nic)
  ∧ AttributeValidateNestedAttributes Sample.equal Sample.nic_unknown_mode
      (with_AttributeConfig (Sample.request Sample.nics_path) Sample.ObjectKnown)
      Sample.empty_response
    = MkResponse
        [MkDiagnostic SeverityError (Some Sample.nics_path) "Attribute Validation Error"
                      (detail_UnknownNestingMode NestingModeUnknown Sample.nics_path)]
        [].
Proof.
  split; [reflexivity|].
  apply (nested_validation_unknown_mode Sample.equal Sample.nic_unknown_mode
           (with_AttributeConfig (Sample.request Sample.nics_path) Sample.ObjectKnown)
           Sample.empty_response Sample.nic).
  reflexivity.
Defined.

Lemma validators_called_in_order_witness :
  Calls (AttributeValidate Sample.equal Sample.validated_string (Sample.request Sample.name_path)
           Sample.empty_response)
  = [CallValueAtPath Sample.name_path;
     CallValidate "warn" Sample.name_path;
     CallValidate "reject" Sample.name_path].
Proof.
  apply (validators_called_in_order Sample.equal Sample.validated_string
           (Sample.request Sample.name_path) Sample.empty_response [Sample.warn; Sample.reject]);
    reflexivity.
Defined.

Lemma list_elements_validated_in_order_witness :
  Diagnostics (AttributeValidateNestedAttributes Sample.equal Sample.nics
                 (MkRequest Sample.nics_path Sample.nics_path Sample.unset
                            (Some (Sample.ListKnown [Sample.ObjectKnown; Sample.ObjectKnown])))
                 Sample.empty_response)
  = [missing_required_error (AtName (AtListIndex Sample.nics_path 0) "mac");
     missing_required_error (AtName (AtListIndex Sample.nics_path 1) "mac")].
Proof.
  apply (list_elements_validated_in_order Sample.equal Sample.nics
           (MkRequest Sample.nics_path Sample.nics_path Sample.unset
                      (Some (Sample.ListKnown [Sample.ObjectKnown; Sample.ObjectKnown])))
           Sample.empty_response Sample.nic "mac" Sample.required_string
           (Sample.ListKnown [Sample.ObjectKnown; Sample.ObjectKnown])
           [Sample.ObjectKnown; Sample.ObjectKnown] []);
    try reflexivity.
  intros idx _. by exists Sample.StringNull.
Defined.

Lemma set_elements_validated_by_value_witness :
  Diagnostics (AttributeValidateNestedAttributes Sample.equal Sample.nic_set
                 (MkRequest Sample.nics_path Sample.nics_path Sample.unset
                            (Some (Sample.SetKnown [Sample.ObjectKnown; Sample.ObjectKnown])))
                 Sample.empty_response)
  = [missing_required_error (AtName (AtSetValue Sample.nics_path Sample.ObjectKnown) "mac")].
Proof.
  apply (set_elements_validated_by_value Sample.equal Sample.nic_set
           (MkRequest Sample.nics_path Sample.nics_path Sample.unset
                      (Some (Sample.SetKnown [Sample.ObjectKnown; Sample.ObjectKnown])))
           Sample.empty_response Sample.nic "mac" Sample.required_string
           (Sample.SetKnown [Sample.ObjectKnown; Sample.ObjectKnown])
           [Sample.ObjectKnown; Sample.ObjectKnown] []);
    try reflexivity.
  intros element _. by exists Sample.StringNull.
Defined.

Lemma map_elements_validated_by_key_witness :
  ∃ keys, keys ≡ₚ elements (dom ({[ "eth0" := Sample.ObjectKnown ]} : gmap string Value))
    ∧ Diagnostics (AttributeValidateNestedAttributes Sample.equal Sample.nic_map
                     (MkRequest Sample.nics_path Sample.nics_path Sample.unset
                                (Some (Sample.MapKnown {[ "eth0" := Sample.ObjectKnown ]})))
                     Sample.empty_response)
      = (Append Sample.equal (Diagnostics Sample.empty_response) (of_message <$> [])
         ++ ((λ key, missing_required_error (AtName (AtMapKey Sample.nics_path key) "mac"))
               <$> keys))%list.
Proof.
  apply (map_elements_validated_by_key Sample.equal Sample.nic_map
           (MkRequest Sample.nics_path Sample.nics_path Sample.unset
                      (Some (Sample.MapKnown {[ "eth0" := Sample.ObjectKnown ]})))
           Sample.empty_response Sample.nic "mac" Sample.required_string
           (Sample.MapKnown {[ "eth0" := Sample.ObjectKnown ]})
           {[ "eth0" := Sample.ObjectKnown ]} []);
    try reflexivity.
  intros key _. by exists Sample.StringNull.
Defined.

Lemma single_known_object_validated_witness :
  Diagnostics (AttributeValidateNestedAttributes Sample.equal Sample.nic_single
                 (MkRequest Sample.nics_path Sample.nics_path Sample.unset
                            (Some Sample.ObjectKnown))
                 Sample.empty_response)
  = [missing_required_error (AtName Sample.nics_path "mac")].
Proof.
  apply (single_known_object_validated Sample.equal Sample.nic_single
           (MkRequest Sample.nics_path Sample.nics_path Sample.unset (Some Sample.ObjectKnown))
           Sample.empty_response Sample.nic "mac" Sample.required_string
           Sample.ObjectKnown (MkObjectValue false false) []);
    try reflexivity.
  by exists Sample.StringNull.
Defined.
